(** * Elasticsearch client resolution of the log query module

    A shallow embedding of [modules/extensions/loghub/index/query/clients.go]:
    the client selector [getESClients], the central cluster pair
    [getCenterESClients], the deployment lookup
    [getESClientsFromLogAnalyticsByCluster] and the index namer
    [getLogIndices], followed by the properties of the specification.

    Go strings are byte strings ([string]); [len s] is [String.length s].
    A Go slice that is only appended to is a [list]; a nil slice is [[]].
    The Go map built from the request filters is a [gmap string string]. *)

From Stdlib Require Import ZArith Ascii String.
From stdpp Require Import gmap strings list.

Local Open Scope string_scope.
Local Open Scope nat_scope.
Local Open Scope list_scope.
Local Open Scope stdpp_scope.

(** ** The functions of Go's [strings] package that the code calls *)

Module strings.

(** [strings.ReplaceAll s old new], scanning left to right without
    overlap.  [skip] counts the bytes of a match still to be dropped.
    For an empty [old] Go inserts [new] at every rune boundary; the
    embedding does so at every byte, which agrees on ASCII input (the
    code only calls it with [old = "*"]). *)
Fixpoint replaceFrom (old new s : string) (skip : nat) : string :=
  match s with
  | EmptyString => EmptyString
  | String c s' =>
      match skip with
      | S k => replaceFrom old new s' k
      | O =>
          if String.prefix old s
          then new +:+ replaceFrom old new s' (String.length old - 1)
          else String c (replaceFrom old new s' 0)
      end
  end.

Fixpoint interleave (new s : string) : string :=
  match s with
  | EmptyString => new
  | String c s' => new +:+ String c (interleave new s')
  end.

Definition ReplaceAll (s old new : string) : string :=
  match old with
  | EmptyString => interleave new s
  | String _ _ => replaceFrom old new s 0
  end.

(** [strings.Split s sep]: the pieces of [s] between the occurrences of
    [sep]; [cur] is the piece being read.  With an empty [sep] Go
    explodes [s] into its runes (bytes, here). *)
Fixpoint splitFrom (sep s : string) (skip : nat) (cur : string) : list string :=
  match s with
  | EmptyString => [cur]
  | String c s' =>
      match skip with
      | S k => splitFrom sep s' k cur
      | O =>
          if String.prefix sep s
          then cur :: splitFrom sep s' (String.length sep - 1) EmptyString
          else splitFrom sep s' 0 (cur +:+ String c EmptyString)
      end
  end.

Fixpoint explode (s : string) : list string :=
  match s with
  | EmptyString => []
  | String c s' => String c EmptyString :: explode s'
  end.

Definition Split (s sep : string) : list string :=
  match sep with
  | EmptyString => explode s
  | String _ _ => splitFrom sep s 0 EmptyString
  end.

(** [unicode.IsSpace] on the UTF-8 encoding of a rune.  The one-byte
    white space is tab, line feed, vertical tab, form feed, carriage
    return and space; the two-byte runes are U+0085 and U+00A0; the
    three-byte ones U+1680, U+2000..U+200A, U+2028, U+2029, U+202F,
    U+205F and U+3000. *)
Definition isSpace1 (a : ascii) : bool :=
  let n := N_of_ascii a in
  ((9 <=? n) && (n <=? 13) || (n =? 32))%N.

Definition isSpace2 (a b : ascii) : bool :=
  let '(m, n) := (N_of_ascii a, N_of_ascii b) in
  ((m =? 194) && ((n =? 133) || (n =? 160)))%N.

Definition isSpace3 (a b c : ascii) : bool :=
  let '(l, m, n) := (N_of_ascii a, N_of_ascii b, N_of_ascii c) in
  ((l =? 225) && (m =? 154) && (n =? 128)
   || (l =? 226) && (m =? 128)
        && ((128 <=? n) && (n <=? 138) || (n =? 168) || (n =? 169) || (n =? 175))
   || (l =? 226) && (m =? 129) && (n =? 159)
   || (l =? 227) && (m =? 128) && (n =? 128))%N.

(** Drop the leading white-space runes.  [fwd] tells whether the bytes
    are met in reading order or, when the reversed string is trimmed,
    last byte first. *)
Fixpoint trimLeading (fwd : bool) (s : string) : string :=
  match s with
  | EmptyString => EmptyString
  | String a s1 =>
      if isSpace1 a then trimLeading fwd s1
      else
        match s1 with
        | EmptyString => s
        | String b s2 =>
            if (if fwd then isSpace2 a b else isSpace2 b a)
            then trimLeading fwd s2
            else
              match s2 with
              | EmptyString => s
              | String c s3 =>
                  if (if fwd then isSpace3 a b c else isSpace3 c b a)
                  then trimLeading fwd s3
                  else s
              end
        end
  end.

(** [strings.TrimSpace s]: [s] without leading and trailing white space. *)
Definition TrimSpace (s : string) : string :=
  String.rev (trimLeading false (String.rev (trimLeading true s))).

(** [strings.Join elems sep]. *)
Fixpoint Join (elems : list string) (sep : string) : string :=
  match elems with
  | [] => EmptyString
  | a :: rest =>
      match rest with
      | [] => a
      | _ :: _ => a +:+ sep +:+ Join rest sep
      end
  end.

End strings.

(** ** Index Namer *)

(** [getLogIndices(prefix, orgId, addons...)], the loop appending two
    entries per addon. *)
Definition getLogIndices (prefix orgId : string) (addons : list string) : list string :=
  if bool_decide (0 < length addons) then
    fold_left
      (fun indices addon => indices ++ [prefix +:+ addon; (prefix +:+ addon) +:+ "-*"])
      addons []
  else if bool_decide (0 < String.length orgId) then [prefix +:+ orgId]
  else [prefix +:+ "*"].

(** The index namer as the specification words it: for each addon, in
    input order, the exact name and its wildcard variant; else the
    organization's index; else everything under the prefix. *)
Definition getLogIndices_ref (prefix orgId : string) (addons : list string) : list string :=
  match addons with
  | _ :: _ => addons ≫= (fun addon => [prefix +:+ addon; (prefix +:+ addon) +:+ "-*"])
  | [] => if decide (orgId ≠ "") then [prefix +:+ orgId] else [prefix +:+ "*"]
  end.

(** ** Data model *)

(** A Go [error] value, identified with its message. *)
Definition error : Type := string.

(** A Go call returning [(value, err)]. *)
Definition result (A : Type) : Type := (A * option error)%type.

(** Package [modules/msp/instance/db] is not part of the sources at
    hand; its constants and row types follow the specification. *)
Module db.

(** Modelled from the spec: the constant [db.LogTypeLogAnalytics], the
    log type of the legacy deployments made by the log-analytics addon. *)
Definition LogTypeLogAnalytics : string := "log-analytics".

(** Modelled from the spec: the constant [db.LogTypeLogService], the
    log type "log-service". *)
Definition LogTypeLogService : string := "log-service".

End db.

Module LogDeployment.
(** Modelled from the spec: the row type [db.LogDeployment], with the
    fields [getESClientsFromLogAnalyticsByCluster] reads. *)
Record t : Type := Build {
  OrgID : string;
  ClusterName : string;
  ClusterType : Z;
  ESURL : string;
  ESConfig : string;
  CollectorURL : string;
  LogType : string
}.
End LogDeployment.

Module LogInstance.
(** Modelled from the spec: the row type [db.LogInstance], one per addon
    key, grouped by cluster, project and workspace. *)
Record t : Type := Build {
  LogKey : string;
  ClusterName : string;
  ProjectId : string;
  Workspace : string
}.
End LogInstance.

(** Modelled from the spec: a (key, value) filter pair of a request. *)
Record Tag : Type := { Key : string; Value : string }.

Module LogRequest.
(** Modelled from the spec: the request type [LogRequest], with the
    fields [getESClients] reads. *)
Record t : Type := Build {
  ClusterName : string;
  Addon : string;
  Filters : list Tag
}.
End LogRequest.

(** Modelled from the spec: an entry of the cluster registry's answer;
    only the name is read. *)
Record ClusterInfo : Type := { Name : string }.

(** The security settings decoded from a deployment's [ESConfig] blob. *)
Record ESConfig : Type := {
  Security : bool;
  Username : string;
  Password : string
}.

(** The [*http.Client] built by [newHTTPClient]: the transport dials
    through the dialer of the named cluster. Durations are nanoseconds. *)
Definition Second : Z := 1000000000.

Record HTTPClient : Type := {
  ProxyFromEnvironment : bool;
  DialContext : string;
  ForceAttemptHTTP2 : bool;
  MaxIdleConns : Z;
  IdleConnTimeout : Z;
  TLSHandshakeTimeout : Z;
  ExpectContinueTimeout : Z
}.

Definition newHTTPClient (clusterName : string) : HTTPClient :=
  {| ProxyFromEnvironment := true;
     DialContext := clusterName;
     ForceAttemptHTTP2 := true;
     MaxIdleConns := 100;
     IdleConnTimeout := 90 * Second;
     TLSHandshakeTimeout := 10 * Second;
     ExpectContinueTimeout := 1 * Second |}.

(** The [elastic.ClientOptionFunc]s the code builds. *)
Inductive ClientOptionFunc : Type :=
  | SetURL (urls : list string)
  | SetSniff (enabled : bool)
  | SetHealthcheck (enabled : bool)
  | SetBasicAuth (username password : string)
  | SetHttpClient (httpClient : HTTPClient).

(** log versions *)
Definition LogVersion1 : string := "1.0.0".
Definition LogVersion2 : string := "2.0.0".

(** ** The logger [p.L]: the lines written are the effect of a call *)

Inductive Level : Type := WARN | ERROR.

Definition Logged (A : Type) : Type := (A * list (Level * string))%type.

Global Instance Logged_ret : MRet Logged := fun A a => (a, []).

Global Instance Logged_bind : MBind Logged := fun A B k m =>
  let '(a, out1) := m in
  let '(b, out2) := k a in
  (b, out1 ++ out2).

Definition Warnf (msg : string) : Logged unit := (tt, [(WARN, msg)]).
Definition Errorf (msg : string) : Logged unit := (tt, [(ERROR, msg)]).

(** [if err != nil { log }]. *)
Definition whenErr (err : option error) (log : error -> Logged unit) : Logged unit :=
  match err with
  | Some e => log e
  | None => mret tt
  end.

(** [for _, x := range l { body }] over a loop state [S]; a [continue]
    is a body that returns its state unchanged. *)
Fixpoint forRange {A S : Type} (l : list A) (body : S -> A -> Logged S) (s : S) : Logged S :=
  match l with
  | [] => mret s
  | x :: l' => s' ← body s x; forRange l' body s'
  end.

(** [m[k]] on a Go [map[string]string]: the zero value when absent. *)
Definition index (m : gmap string string) (k : string) : string :=
  default "" (m !! k).

(** [uint64(n)] of an [int64]. *)
Definition uint64 (n : Z) : Z := (n mod 2 ^ 64)%Z.

(** ** Client resolution *)

Section Query.

(** The search-client handle [*elastic.Client]. *)
Context {ElasticClient : Type}.

(** ESClient . *)
Record ESClient : Type := {
  Client : ElasticClient;
  URLs : string;
  LogVersion : string;
  Indices : list string
}.

(** The library calls whose result the code only inspects:
    [elastic.NewClient(options...)], and [json.Unmarshal] into the
    security settings ([None] when it returns an error). *)
Record Runtime : Type := {
  elastic_NewClient : list ClientOptionFunc -> ElasticClient + error;
  json_Unmarshal : string -> option ESConfig
}.

(** The [provider]: its configuration flag [p.C.QueryBackES], the two
    central handles, the cluster registry [p.bdl] and the tables
    [p.db.LogDeployment] and [p.db.LogInstanceDB]. *)
Record provider : Type := {
  QueryBackES : bool;
  client : ElasticClient;
  backClient : ElasticClient;
  ListClusters : string -> Z -> result (list ClusterInfo);
  QueryByOrgIDAndClusters : Z -> list string -> result (list LogDeployment.t);
  GetByLogKey : string -> result (option LogInstance.t);
  GetListByClusterAndProjectIdAndWorkspace :
    string -> string -> string -> result (list LogInstance.t)
}.

Context (rt : Runtime) (p : provider).

Definition getCenterESClients (indices : list string) : list ESClient :=
  if QueryBackES p then
    [ {| Client := client p; URLs := "-"; LogVersion := ""; Indices := indices |};
      {| Client := backClient p; URLs := "-b"; LogVersion := ""; Indices := indices |} ]
  else
    [ {| Client := client p; URLs := "-"; LogVersion := ""; Indices := indices |} ].

(** The loop over [sameGroupLogInstances]: the state is [addons] and
    the map [keyCaches] of the keys already appended. *)
Definition appendKey (st : list string * gmap string bool) (instance : LogInstance.t)
  : list string * gmap string bool :=
  let '(addons, keyCaches) := st in
  if decide (is_Some (keyCaches !! LogInstance.LogKey instance)) then st
  else (addons ++ [LogInstance.LogKey instance],
        <[LogInstance.LogKey instance := true]> keyCaches).

(** "get all other addons in same cluster, project and workspace": the
    value of [addons] after the block that starts with that comment. *)
Definition rowAddons (addon : string) : Logged (list string) :=
  if bool_decide (0 < String.length addon) then
    let '(logInstance, err) := GetByLogKey p addon in
    whenErr err (fun _ => Warnf ("fail to get logInstance for logKey: " +:+ addon));;
    match logInstance with
    | Some logInstance =>
        let '(sameGroupLogInstances, err) :=
          GetListByClusterAndProjectIdAndWorkspace p
            (LogInstance.ClusterName logInstance)
            (LogInstance.ProjectId logInstance)
            (LogInstance.Workspace logInstance) in
        whenErr err (fun _ => Warnf "fail to get logInstance");;
        mret (fold_left appendKey sameGroupLogInstances ([], ∅)).1
    | None => mret [addon]
    end
  else mret [].

(** The client options of a deployment row. *)
Definition rowOptions (d : LogDeployment.t) : list ClientOptionFunc :=
  let options :=
    [ SetURL (strings.Split (LogDeployment.ESURL d) ",");
      SetSniff false;
      SetHealthcheck false ] in
  let options :=
    if bool_decide (0 < String.length (LogDeployment.ESConfig d)) then
      match json_Unmarshal rt (LogDeployment.ESConfig d) with
      | Some cfg =>
          if Security cfg
             && (bool_decide (Username cfg ≠ "") || bool_decide (Password cfg ≠ ""))
          then options ++ [SetBasicAuth (Username cfg) (Password cfg)]
          else options
      | None => options
      end
    else options in
  if bool_decide (LogDeployment.ClusterType d = 1%Z)
  then options ++ [SetHttpClient (newHTTPClient (LogDeployment.ClusterName d))]
  else options.

(** "omit the orgId alias, if deployed by log-analytics addon". *)
Definition rowOrgId (d : LogDeployment.t) : string :=
  if bool_decide (LogDeployment.LogType d = db.LogTypeLogAnalytics) then ""
  else LogDeployment.OrgID d.

(** One turn of the loop over the deployment rows: [Some] client when
    the turn appends one, [None] when it ends in [continue]. *)
Definition rowClient (addon : string) (d : LogDeployment.t) : Logged (option ESClient) :=
  if bool_decide (String.length (LogDeployment.ESURL d) ≤ 0) then mret None
  else
    addons ← rowAddons addon;
    let options := rowOptions d in
    let orgId := rowOrgId d in
    match elastic_NewClient rt options with
    | inr err =>
        Errorf ("failed to create elasticsearch client: " +:+ err);;
        mret None
    | inl client =>
        let CollectorURL := strings.TrimSpace (LogDeployment.CollectorURL d) in
        if bool_decide (0 < String.length CollectorURL)
           || bool_decide (LogDeployment.LogType d = db.LogTypeLogService)
        then
          mret (Some {| Client := client;
                        LogVersion := LogVersion2;
                        URLs := LogDeployment.ESURL d;
                        Indices := getLogIndices "rlogs-" orgId addons |})
        else
          mret (Some {| Client := client;
                        LogVersion := LogVersion1;
                        URLs := LogDeployment.ESURL d;
                        Indices := getLogIndices "spotlogs-" orgId addons |})
    end.

(** The loop over the deployment rows, from [var clients []*ESClient]. *)
Definition rangeDeployments (addon : string) (rows : list LogDeployment.t)
  : Logged (list ESClient) :=
  forRange rows
    (fun clients d =>
       new ← rowClient addon d;
       mret (match new with
             | Some c => clients ++ [c]
             | None => clients
             end))
    [].

Definition getESClientsFromLogAnalyticsByCluster
    (orgID : Z) (addon : string) (clusterNames : list string) : Logged (list ESClient) :=
  let '(list, err) := QueryByOrgIDAndClusters p orgID clusterNames in
  if bool_decide (is_Some err) then mret []
  else rangeDeployments addon list.

Definition getESClientsFromLogAnalytics (orgID : Z) : Logged (list ESClient) :=
  let '(clusters, err) := ListClusters p "" (uint64 orgID) in
  if bool_decide (is_Some err) then mret []
  else
    let clusterNames := fold_left (fun names c => names ++ [Name c]) clusters [] in
    getESClientsFromLogAnalyticsByCluster orgID "" clusterNames.

Definition getESClients (orgID : Z) (req : LogRequest.t) : Logged (list ESClient) :=
  if bool_decide (0 < String.length (LogRequest.ClusterName req))
     || bool_decide (0 < String.length (LogRequest.Addon req))
  then
    if bool_decide (String.length (LogRequest.ClusterName req) ≤ 0)
       || bool_decide (String.length (LogRequest.Addon req) ≤ 0)
    then mret []
    else
      getESClientsFromLogAnalyticsByCluster orgID
        (strings.ReplaceAll (LogRequest.Addon req) "*" "")
        [LogRequest.ClusterName req]
  else
    let filters :=
      fold_left (fun (m : gmap string string) item => <[Key item := Value item]> m)
        (LogRequest.Filters req) ∅ in
    if bool_decide (index filters "origin" = "sls") then
      mret (getCenterESClients ["sls-*"])
    else if bool_decide (index filters "origin" = "dice") then
      clients ← getESClientsFromLogAnalytics orgID;
      if bool_decide (length clients ≤ 0) then mret (getCenterESClients ["rlogs-*"])
      else mret clients
    else if bool_decide (index filters "origin" ≠ "") then
      mret (getCenterESClients ["__not-exist__*"])
    else
      clients ← getESClientsFromLogAnalytics orgID;
      mret (getCenterESClients ["sls-*"] ++ clients).

End Query.

(** ** Reference notions used by the statements *)

(** The value a filter list carries for a key: the one of its last pair
    with that key, if any. *)
Fixpoint filterValue (key : string) (filters : list Tag) : option string :=
  match filters with
  | [] => None
  | item :: rest =>
      match filterValue key rest with
      | Some v => Some v
      | None => if decide (Key item = key) then Some (Value item) else None
      end
  end.

(** Deduplication that keeps the first occurrence of every key and the
    order in which keys are first seen. *)
Fixpoint keepFirst (keys : list string) : list string :=
  match keys with
  | [] => []
  | k :: rest => k :: filter (fun k' => k' ≠ k) (keepFirst rest)
  end.

(** The sibling group of an addon as the specification words it: when
    the instance of the addon key is found, the keys of the instances
    sharing its (cluster, project, workspace), deduplicated; else the
    addon alone. *)
Definition siblingGroup_ref {ElasticClient : Type} (p : @provider ElasticClient)
    (addon : string) : list string :=
  match (GetByLogKey p addon).1 with
  | Some logInstance =>
      keepFirst
        (LogInstance.LogKey <$>
           (GetListByClusterAndProjectIdAndWorkspace p
              (LogInstance.ClusterName logInstance)
              (LogInstance.ProjectId logInstance)
              (LogInstance.Workspace logInstance)).1)
  | None => [addon]
  end.

(** The invariant of a resolved client: at least one index pattern and a
    non-empty connection URL. *)
Definition wellFormed {ElasticClient : Type} (c : @ESClient ElasticClient) : Prop :=
  Indices c ≠ [] ∧ URLs c ≠ "".

(** ** A sample installation

    Organization 7 owns two clusters.  Cluster "c1" has a log-service
    deployment ([service]) and an old log-analytics one whose collector
    is blank ([legacy]); cluster "c2" has a row without connection URL
    ([unconfigured]) and a row whose client cannot be built
    ([unreachable]).  Addons "k1" and "k2" share a project and a
    workspace; "k3" lives elsewhere.  Organization 8 owns nothing. *)

Module Sample.

Definition service : LogDeployment.t :=
  {| LogDeployment.OrgID := "7";
     LogDeployment.ClusterName := "c1";
     LogDeployment.ClusterType := 0;
     LogDeployment.ESURL := "http://es1:9200,http://es2:9200";
     LogDeployment.ESConfig := "auth";
     LogDeployment.CollectorURL := "http://collector";
     LogDeployment.LogType := "log-service" |}.

Definition unconfigured : LogDeployment.t :=
  {| LogDeployment.OrgID := "7";
     LogDeployment.ClusterName := "c2";
     LogDeployment.ClusterType := 0;
     LogDeployment.ESURL := "";
     LogDeployment.ESConfig := "";
     LogDeployment.CollectorURL := "";
     LogDeployment.LogType := "log-service" |}.

Definition legacy : LogDeployment.t :=
  {| LogDeployment.OrgID := "7";
     LogDeployment.ClusterName := "c1";
     LogDeployment.ClusterType := 1;
     LogDeployment.ESURL := "http://es3:9200";
     LogDeployment.ESConfig := "";
     LogDeployment.CollectorURL := "  ";
     LogDeployment.LogType := "log-analytics" |}.

Definition unreachable : LogDeployment.t :=
  {| LogDeployment.OrgID := "7";
     LogDeployment.ClusterName := "c2";
     LogDeployment.ClusterType := 0;
     LogDeployment.ESURL := "down";
     LogDeployment.ESConfig := "";
     LogDeployment.CollectorURL := "";
     LogDeployment.LogType := "log-service" |}.

Definition rows : list LogDeployment.t := [service; unconfigured; legacy; unreachable].

Definition instances : list LogInstance.t :=
  [ LogInstance.Build "k1" "c1" "p1" "DEV";
    LogInstance.Build "k2" "c1" "p1" "DEV";
    LogInstance.Build "k1" "c1" "p1" "DEV";
    LogInstance.Build "k3" "c1" "p2" "DEV" ].

Definition sameGroup (cluster project workspace : string) (i : LogInstance.t) : bool :=
  bool_decide (LogInstance.ClusterName i = cluster)
  && bool_decide (LogInstance.ProjectId i = project)
  && bool_decide (LogInstance.Workspace i = workspace).

(** Handles are named by the first URL they connect to. *)
Definition rt : @Runtime string :=
  {| elastic_NewClient := fun options =>
       match options with
       | SetURL ("down" :: _) :: _ => inr "no Elasticsearch node available"
       | SetURL (url :: _) :: _ => inl url
       | _ => inr "no URL"
       end;
     json_Unmarshal := fun blob =>
       if bool_decide (blob = "auth")
       then Some {| Security := true; Username := "elastic"; Password := "secret" |}
       else None |}.

Definition p (dual : bool) : @provider string :=
  {| QueryBackES := dual;
     client := "central";
     backClient := "central-back";
     ListClusters := fun _ orgID =>
       if bool_decide (orgID = 7%Z)
       then ([ {| Name := "c1" |}; {| Name := "c2" |} ], None)
       else ([], None);
     QueryByOrgIDAndClusters := fun orgID clusterNames =>
       if bool_decide (orgID = 7%Z)
       then (filter (fun d => LogDeployment.ClusterName d ∈ clusterNames) rows, None)
       else ([], None);
     GetByLogKey := fun key =>
       (head (filter (fun i => LogInstance.LogKey i = key) instances), None);
     GetListByClusterAndProjectIdAndWorkspace := fun cluster project workspace =>
       (filter (fun i => sameGroup cluster project workspace i = true) instances, None) |}.

End Sample.


(** ** Diagnostics *)

(** The line feed of [fmt.Println] and of the "\n" literals. *)
Definition LF : string := String "010"%char EmptyString.

Section Diagnostics.

(** [*elastic.SearchSource], the value its [Source()] yields, and the
    two library calls on them: [searchSource.Source()] and
    [jsonx.MarshalAndIndent]. *)
Context {ElasticClient SearchSource Source : Type}.
Context (searchSource_Source : SearchSource -> Source + error).
Context (jsonx_MarshalAndIndent : Source -> string).

(** [c.printSearchSource(searchSource)]: the pair returned, and the
    writes to standard output. *)
Definition printSearchSource (c : @ESClient ElasticClient) (searchSource : SearchSource)
  : (string * option error) * list string :=
  match searchSource_Source searchSource with
  | inr err => (("", Some ("invalid search source: " +:+ err)), [])
  | inl source =>
      let body := jsonx_MarshalAndIndent source in
      let body := (((URLs c +:+ LF) +:+ strings.Join (Indices c) ",") +:+ LF) +:+ body in
      ((body, None), [body +:+ LF])
  end.

End Diagnostics.

(** ** Notions used by the further properties *)

Global Instance Level_eq_dec : EqDecision Level.
Proof. solve_decision. Defined.

(** The lines of a log written at level ERROR. *)
Definition errorLines (out : list (Level * string)) : list (Level * string) :=
  filter (fun line => line.1 = ERROR) out.

(** The organization-level index of a deployment row: "rlogs-" or
    "spotlogs-", followed by the organization id of the row, or by the
    wildcard for a log-analytics row and for a row without organization
    id. *)
Definition orgIndex (d : LogDeployment.t) : string :=
  (if decide (strings.TrimSpace (LogDeployment.CollectorURL d) ≠ ""
              ∨ LogDeployment.LogType d = "log-service")
   then "rlogs-" else "spotlogs-")
  +:+ (if decide (LogDeployment.LogType d = "log-analytics" ∨ LogDeployment.OrgID d = "")
       then "*" else LogDeployment.OrgID d).

(** Whether a byte occurs in a string. *)
Fixpoint hasByte (c : ascii) (s : string) : bool :=
  match s with
  | EmptyString => false
  | String c' s' => bool_decide (c' = c) || hasByte c s'
  end.

(** The sample installation while the instance table cannot list: the
    lookup of a key still answers, the listing of a group fails. *)
Module Outage.

Definition p : @provider string :=
  {| QueryBackES := false;
     client := "central";
     backClient := "central-back";
     ListClusters := ListClusters (Sample.p false);
     QueryByOrgIDAndClusters := QueryByOrgIDAndClusters (Sample.p false);
     GetByLogKey := GetByLogKey (Sample.p false);
     GetListByClusterAndProjectIdAndWorkspace := fun _ _ _ =>
       ([], Some "connection refused") |}.

End Outage.

(** ** The edas container list endpoint (package [endpoints] of cmdb)

    [getListEdasContainerParams] reads the query of the request with
    [url.Values.Get] and [strconv.ParseUint]; the embedding starts from
    the values [r.URL.Query()] returns. *)

Module strconv.

(** The two causes of a [*strconv.NumError]. *)
Inductive Cause : Type := ErrSyntax | ErrRange.

(** [&NumError{Func, Num, Err}]. *)
Record NumError : Type := { Func : string; Num : string; Err : Cause }.

(** [1<<64 - 1], and the smallest number whose tenfold exceeds it. *)
Definition maxUint64 : Z := 18446744073709551615.
Definition cutoff : Z := maxUint64 / 10 + 1.

(** The loop of [ParseUint] over the bytes of [s] for base 10 and bit
    size 64; [n] is the [uint64] read so far.  A letter stands for a
    digit of 10 or more, which base 10 refuses like any other byte that
    is no digit ([_] is only skipped for base 0). *)
Fixpoint parseLoop (bytes : string) (n : Z) : Z + Cause :=
  match bytes with
  | EmptyString => inl n
  | String c rest =>
      let code := Z.of_N (N_of_ascii c) in
      if (48 <=? code)%Z && (code <=? 57)%Z then
        let d := (code - 48)%Z in
        if (cutoff <=? n)%Z then inr ErrRange
        else
          let n := (n * 10 mod 2 ^ 64)%Z in
          let n1 := ((n + d) mod 2 ^ 64)%Z in
          if (n1 <? n)%Z || (maxUint64 <? n1)%Z then inr ErrRange
          else parseLoop rest n1
      else inr ErrSyntax
  end.

(** [strconv.ParseUint(s, 10, 64)]: the value and the error. *)
Definition ParseUint (s : string) : Z * option NumError :=
  match s with
  | EmptyString => (0%Z, Some {| Func := "ParseUint"; Num := s; Err := ErrSyntax |})
  | String _ _ =>
      match parseLoop s 0 with
      | inl n => (n, None)
      | inr ErrSyntax => (0%Z, Some {| Func := "ParseUint"; Num := s; Err := ErrSyntax |})
      | inr ErrRange => (maxUint64, Some {| Func := "ParseUint"; Num := s; Err := ErrRange |})
      end
  end.

End strconv.

Module url.

(** [url.Values.Get]: the first value of the key, or the empty string. *)
Definition Get (v : gmap string (list string)) (key : string) : string :=
  match v !! key with
  | Some (value :: _) => value
  | _ => EmptyString
  end.

(** [v[key]]: every value of the key, nil when there is none. *)
Definition values (v : gmap string (list string)) (key : string) : list string :=
  default [] (v !! key).

End url.

Module edas.

(** [apistructs.EdasContainerListRequest]. *)
Record EdasContainerListRequest : Type := {
  ProjectID : Z;
  AppID : Z;
  RuntimeID : Z;
  Workspace : string;
  Service : string;
  EdasAppIDs : list string
}.

(** An id parameter: zero when the value is empty, else what
    [ParseUint] reads, or its error. *)
Definition idParam (str : string) : Z + strconv.NumError :=
  if bool_decide (str ≠ "") then
    match strconv.ParseUint str with
    | (_, Some err) => inr err
    | (id, None) => inl id
    end
  else inl 0%Z.

(** [getListEdasContainerParams(r)], on the values of [r.URL.Query()]. *)
Definition getListEdasContainerParams (query : gmap string (list string))
  : EdasContainerListRequest + strconv.NumError :=
  let projectIDStr := url.Get query "projectId" in
  match idParam projectIDStr with
  | inr err => inr err
  | inl projectID =>
      let appIDStr := url.Get query "appId" in
      match idParam appIDStr with
      | inr err => inr err
      | inl appID =>
          let runtimeIDStr := url.Get query "runtimeId" in
          match idParam runtimeIDStr with
          | inr err => inr err
          | inl runtimeID =>
              let workspace := url.Get query "workspace" in
              let service := url.Get query "service" in
              let edasAppIDs := url.values query "edasAppId" in
              inl {| ProjectID := projectID;
                     AppID := appID;
                     RuntimeID := runtimeID;
                     Workspace := workspace;
                     Service := service;
                     EdasAppIDs := edasAppIDs |}
          end
      end
  end.

(** The response of the handler: [ErrListInstance.InvalidParameter(err)],
    [ErrListInstance.InternalError(err)] or [OkResp(containers)]. *)
Inductive Responser (Containers : Type) : Type :=
  | InvalidParameter (err : strconv.NumError)
  | InternalError (err : error)
  | OkResp (containers : Containers).

Arguments InvalidParameter {Containers} err.
Arguments InternalError {Containers} err.
Arguments OkResp {Containers} containers.

(** [e.ListEdasContainers(ctx, r, vars)]: the response, the Go error,
    and the requests passed to [e.container.ListEdasByParams]. *)
Definition ListEdasContainers {Containers : Type}
    (ListEdasByParams : EdasContainerListRequest -> Containers + error)
    (query : gmap string (list string))
  : Responser Containers * option error * list EdasContainerListRequest :=
  match getListEdasContainerParams query with
  | inr err => (InvalidParameter err, None, [])
  | inl params =>
      match ListEdasByParams params with
      | inr err => (InternalError err, None, [params])
      | inl containers => (OkResp containers, None, [params])
      end
  end.

(** A decimal numeral: every byte is a digit. *)
Fixpoint allDigits (s : string) : bool :=
  match s with
  | EmptyString => true
  | String c rest =>
      let code := Z.of_N (N_of_ascii c) in
      (48 <=? code)%Z && (code <=? 57)%Z && allDigits rest
  end.

(** The number a decimal numeral denotes, read after [acc]. *)
Fixpoint decimalFrom (acc : Z) (s : string) : Z :=
  match s with
  | EmptyString => acc
  | String c rest => decimalFrom (acc * 10 + (Z.of_N (N_of_ascii c) - 48))%Z rest
  end.

Definition decimal (s : string) : Z := decimalFrom 0 s.

(** What an id parameter must be for the field [id] to be read from it:
    empty, for zero, or a decimal numeral of at most 64 bits. *)
Definition reads (str : string) (id : Z) : Prop :=
  (str = "" ∧ id = 0%Z)
  ∨ (str ≠ "" ∧ allDigits str = true ∧ (decimal str < 2 ^ 64)%Z ∧ id = decimal str).

End edas.

(** ** The local volume provisioner (package [localvolume])

    The package keeps the mount point it discovers in three variables
    guarded by a [sync.Once]; they are the [HostPath] part of the
    world.  What the provisioner does to its surroundings (a discovery,
    a command run on the pods of a node, a line logged) is recorded in
    the trace of the world. *)

Module localvolume.

Inductive Event : Type :=
  | Discover
  | OnNodesPods (cmd nodeSelector podSelector : string)
  | Infof (msg : string)
  | Error (msg : string).

Global Instance Event_eq_dec : EqDecision Event.
Proof. solve_decision. Defined.

(** [hostPathOnce] (whether it has run), [hostPathErr] and
    [hostPathVolumePrefixInContainer]. *)
Record HostPath : Type := {
  hostPathOnce : bool;
  hostPathErr : option error;
  hostPathVolumePrefixInContainer : string
}.

Record World : Type := { host : HostPath; trace : list Event }.

(** The world at program start. *)
Definition start : World :=
  {| host := {| hostPathOnce := false; hostPathErr := None;
                hostPathVolumePrefixInContainer := "" |};
     trace := [] |}.

(** [controller.ProvisioningState]. *)
Inductive ProvisioningState : Type :=
  | ProvisioningFinished
  | ProvisioningInBackground
  | ProvisioningNoChange
  | ProvisioningReschedule.

(** [v1.NodeSelectorRequirement]. *)
Record NodeSelectorRequirement : Type := {
  Key : string;
  Operator : string;
  Values : list string
}.

Section Provisioner.

(** [resource.Quantity]. *)
Context {Quantity : Type}.

(** The fields of [controller.ProvisionOptions] the code reads:
    [SelectedNode] (nil, or the name of the node), [PVName],
    [StorageClass.Parameters] (a nil map is [None]),
    [PVC.Spec.AccessModes] and [PVC.Spec.Resources.Requests].  The
    pointers [StorageClass] and [PVC] are taken to be set, as the
    provisioning controller hands them over. *)
Record ProvisionOptions : Type := {
  SelectedNode : option string;
  PVName : string;
  Parameters : option (gmap string string);
  AccessModes : list string;
  Requests : gmap string Quantity
}.

(** The fields of the [v1.PersistentVolume] the code builds. *)
Record PersistentVolume : Type := {
  Name : string;
  PersistentVolumeReclaimPolicy : string;
  PVAccessModes : list string;
  Capacity : gmap string Quantity;
  LocalPath : string;
  NodeSelectorTerms : list (list NodeSelectorRequirement)
}.

(** What the package takes from elsewhere: the zero [Quantity], the
    helpers [strutil.JoinPath] and [strutil.TrimPrefixes], the answers
    of [DiscoverMountPoint()] and of [cmdExecutor.OnNodesPods] (they
    may depend on all that happened before), and the rendering of the
    options by [%v]. *)
Record Env : Type := {
  zeroQuantity : Quantity;
  JoinPath : list string -> string;
  TrimPrefixes : string -> list string -> string;
  DiscoverMountPoint : list Event -> string * option error;
  cmdExecutor_OnNodesPods : list Event -> string -> string -> string -> option error;
  showOptions : ProvisionOptions -> string
}.

Context (env : Env).

Definition log (e : Event) (w : World) : World :=
  {| host := host w; trace := trace w ++ [e] |}.

(** [options.StorageClass.Parameters["hostpath"]]. *)
Definition hostpath (options : ProvisionOptions) : string :=
  match Parameters options with
  | Some parameters => default "" (parameters !! "hostpath")
  | None => ""
  end.

(** The function handed to [hostPathOnce.Do]. *)
Definition discover (w : World) : World :=
  let '(mountpoint, err) := DiscoverMountPoint env (trace w) in
  {| host := {| hostPathOnce := true;
                hostPathErr := match err with
                               | Some e => Some e
                               | None => hostPathErr (host w)
                               end;
                hostPathVolumePrefixInContainer := mountpoint |};
     trace := trace w ++ [Discover] |}.

Definition findLocalVolumeMountedPath (options : ProvisionOptions) (w : World)
  : (string * option error) * World :=
  if bool_decide (is_Some (Parameters options)) && bool_decide (hostpath options ≠ "") then
    ((JoinPath env ["/hostfs"; hostpath options], None), w)
  else
    let w := if hostPathOnce (host w) then w else discover w in
    ((hostPathVolumePrefixInContainer (host w), hostPathErr (host w)), w).

Definition volumePath (options : ProvisionOptions) (pvname : string) (w : World)
  : (string * option error) * World :=
  let '((mountPath, err), w) := findLocalVolumeMountedPath options w in
  match err with
  | Some e => (("", Some e), w)
  | None => ((JoinPath env [mountPath; "localvolume"; pvname], None), w)
  end.

Definition volumeRealPath (options : ProvisionOptions) (pvname : string) (w : World)
  : (string * option error) * World :=
  let '((mountPath, err), w) := findLocalVolumeMountedPath options w in
  match err with
  | Some e => (("", Some e), w)
  | None =>
      ((JoinPath env ["/"; TrimPrefixes env mountPath ["/hostfs"]; "localvolume"; pvname],
        None), w)
  end.

(** [p.Provision(ctx, options)]. *)
Definition Provision (options : ProvisionOptions) (w : World)
  : (option PersistentVolume * ProvisioningState * option error) * World :=
  let w := log (Infof ("Start provisioning local volume: options: "
                       +:+ showOptions env options)) w in
  match SelectedNode options with
  | None =>
      let err := "Not provide selectedNode in provisionOptions" in
      let w := log (Error err) w in
      ((None, ProvisioningFinished, Some err), w)
  | Some nodeName =>
      let '((volPathOnHost, err), w) := volumeRealPath options (PVName options) w in
      match err with
      | Some e => ((None, ProvisioningFinished, Some e), w)
      | None =>
          let '((volPath, err), w) := volumePath options (PVName options) w in
          match err with
          | Some e => ((None, ProvisioningFinished, Some e), w)
          | None =>
              let nodeSelector := "kubernetes.io/hostname=" +:+ nodeName in
              let cmd := "mkdir -p " +:+ volPath in
              let err :=
                cmdExecutor_OnNodesPods env (trace w) cmd nodeSelector
                  "app=volume-provisioner" in
              let w := log (OnNodesPods cmd nodeSelector "app=volume-provisioner") w in
              match err with
              | Some e => ((None, ProvisioningFinished, Some e), w)
              | None =>
                  ((Some {| Name := PVName options;
                            PersistentVolumeReclaimPolicy := "Delete";
                            PVAccessModes := AccessModes options;
                            Capacity :=
                              {[ "storage" :=
                                   default (zeroQuantity env)
                                     (Requests options !! "storage") ]};
                            LocalPath := volPathOnHost;
                            NodeSelectorTerms :=
                              [ [ {| Key := "kubernetes.io/hostname";
                                     Operator := "In";
                                     Values := [nodeName] |} ] ] |},
                    ProvisioningFinished, None), w)
              end
          end
      end
  end.

(** A series of provisioning requests, served one after the other. *)
Fixpoint serve (requests : list ProvisionOptions) (w : World) : World :=
  match requests with
  | [] => w
  | options :: rest => serve rest (Provision options w).2
  end.

End Provisioner.

(** The discoveries and the commands in a trace. *)
Definition discoveries (t : list Event) : list Event :=
  filter (fun e => e = Discover) t.

Definition isCommand (e : Event) : bool :=
  match e with
  | OnNodesPods _ _ _ => true
  | _ => false
  end.

Definition commands (t : list Event) : list Event :=
  filter (fun e => isCommand e = true) t.

(** What the [Once] keeps true: no discovery is on record before it has
    run, one at most after. *)
Definition onceInv (w : World) : Prop :=
  length (discoveries (trace w)) ≤ (if hostPathOnce (host w) then 1 else 0).

End localvolume.

(** Two sample surroundings of the provisioner: quantities are numbers
    of bytes, paths are joined with a slash, and the discovery of the
    mount point either fails ([broken]) or finds "/hostfs/data"
    ([healthy]); commands always succeed. *)
Module VolumeSample.

(** Join two path elements with one slash between them. *)
Definition joinTwo (a b : string) : string :=
  if String.prefix "/" b then (if bool_decide (a = "/") then b else a +:+ b)
  else if bool_decide (a = "/") then a +:+ b
  else a +:+ "/" +:+ b.

Fixpoint join (ss : list string) : string :=
  match ss with
  | [] => EmptyString
  | a :: rest =>
      match rest with
      | [] => a
      | _ :: _ => joinTwo a (join rest)
      end
  end.

(** Drop the first of the prefixes that [s] starts with. *)
Fixpoint trim (s : string) (prefixes : list string) : string :=
  match prefixes with
  | [] => s
  | p :: rest =>
      if String.prefix p s
      then String.substring (String.length p) (String.length s - String.length p) s
      else trim s rest
  end.

Definition env (mountpoint : string * option error) : @localvolume.Env Z :=
  {| localvolume.zeroQuantity := 0%Z;
     localvolume.JoinPath := join;
     localvolume.TrimPrefixes := trim;
     localvolume.DiscoverMountPoint := fun _ => mountpoint;
     localvolume.cmdExecutor_OnNodesPods := fun _ _ _ _ => None;
     localvolume.showOptions := localvolume.PVName |}.

Definition broken : @localvolume.Env Z := env ("", Some "no mount point found").
Definition healthy : @localvolume.Env Z := env ("/hostfs/data", None).

Definition request (pvname : string) (hostpath : option string)
  : @localvolume.ProvisionOptions Z :=
  {| localvolume.SelectedNode := Some "node-1";
     localvolume.PVName := pvname;
     localvolume.Parameters :=
       match hostpath with
       | Some path => Some {[ "hostpath" := path ]}
       | None => None
       end;
     localvolume.AccessModes := ["ReadWriteOnce"];
     localvolume.Requests := {[ "storage" := 1024%Z ]} |}.

End VolumeSample.

(** ** Properties *)

(** *** Strings and the logger *)

Lemma len_pos (s : string) : 0 < String.length s ↔ s ≠ "".
Proof. destruct s; simpl; split; (lia || congruence || done). Qed.

Lemma len_nonpos (s : string) : String.length s ≤ 0 ↔ s = "".
Proof. destruct s; simpl; split; (lia || congruence || done). Qed.

Lemma append_assoc (s1 s2 s3 : string) : (s1 +:+ s2) +:+ s3 = s1 +:+ (s2 +:+ s3).
Proof.
  induction s1 as [|c s1 IH]; [done |].
  change (String c ((s1 +:+ s2) +:+ s3) = String c (s1 +:+ (s2 +:+ s3))).
  by f_equal.
Qed.

Lemma prefix_append (s1 s2 : string) : String.prefix s1 (s1 +:+ s2) = true.
Proof.
  induction s1 as [|c s1 IH]; [by destruct s2 |].
  change (String.prefix (String c s1) (String c (s1 +:+ s2)) = true).
  cbn [String.prefix].
  destruct (ascii_dec c c); [exact IH | done].
Qed.

Example TrimSpace_blank : strings.TrimSpace "  " = "".
Proof. reflexivity. Qed.

Example TrimSpace_inner : strings.TrimSpace "  http://collector:7076  " = "http://collector:7076".
Proof. reflexivity. Qed.

Example ReplaceAll_star : strings.ReplaceAll "k*2**" "*" "" = "k2".
Proof. reflexivity. Qed.

Example Split_urls :
  strings.Split "http://es1:9200,http://es2:9200" "," = ["http://es1:9200"; "http://es2:9200"].
Proof. reflexivity. Qed.

Lemma Logged_bind_fst {A B : Type} (m : Logged A) (k : A -> Logged B) :
  (m ≫= k).1 = (k m.1).1.
Proof.
  unfold mbind, Logged_bind. destruct m as [a out1]; simpl.
  by destruct (k a).
Qed.

(** *** Index Namer *)

Lemma getLogIndices_loop (prefix : string) (addons acc : list string) :
  fold_left
    (fun indices addon => indices ++ [prefix +:+ addon; (prefix +:+ addon) +:+ "-*"])
    addons acc
  = acc ++ (addons ≫= fun addon => [prefix +:+ addon; (prefix +:+ addon) +:+ "-*"]).
Proof.
  revert acc. induction addons as [|a addons IH]; intros acc; simpl.
  - by rewrite app_nil_r.
  - rewrite IH. by rewrite <- app_assoc.
Qed.

Lemma getLogIndices_eq_ref (prefix orgId : string) (addons : list string) :
  getLogIndices prefix orgId addons = getLogIndices_ref prefix orgId addons.
Proof.
  unfold getLogIndices, getLogIndices_ref.
  destruct addons as [|a addons].
  - rewrite bool_decide_eq_false_2 by (simpl; lia).
    destruct (decide (orgId ≠ "")) as [Hne | He].
    + by rewrite bool_decide_eq_true_2 by (by apply len_pos).
    + by rewrite bool_decide_eq_false_2 by (by rewrite len_pos).
  - rewrite bool_decide_eq_true_2 by (simpl; lia).
    by rewrite getLogIndices_loop.
Qed.

Lemma getLogIndices_nonempty (prefix orgId : string) (addons : list string) :
  getLogIndices prefix orgId addons ≠ [].
Proof.
  rewrite getLogIndices_eq_ref. unfold getLogIndices_ref.
  destruct addons; [by case_decide | done].
Qed.

Lemma getLogIndices_prefix (prefix orgId : string) (addons : list string) :
  Forall (fun i => String.prefix prefix i = true) (getLogIndices prefix orgId addons).
Proof.
  rewrite getLogIndices_eq_ref. unfold getLogIndices_ref.
  destruct addons as [|a addons].
  - case_decide; repeat constructor; apply prefix_append.
  - apply Forall_bind, Forall_forall. intros k _.
    repeat constructor; [| rewrite append_assoc]; apply prefix_append.
Qed.

(** C3. [getLogIndices] equals the reference definition: two entries
    per addon, in input order and without deduplication, when addons
    are given; else the single name [prefix+orgId] when the
    organization scope is non-empty; else the single wildcard
    [prefix+"*"].  In particular addons a, b under prefix rlogs- with no
    scope give rlogs-a, rlogs-a-*, rlogs-b, rlogs-b-*. *)
Theorem getLogIndices_refines :
  (∀ (prefix orgId : string) (addons : list string),
      getLogIndices prefix orgId addons = getLogIndices_ref prefix orgId addons)
  ∧ getLogIndices "rlogs-" "" ["a"; "b"]
    = ["rlogs-a"; "rlogs-a-*"; "rlogs-b"; "rlogs-b-*"]
  ∧ getLogIndices "rlogs-" "" ["a"; "a"]
    = ["rlogs-a"; "rlogs-a-*"; "rlogs-a"; "rlogs-a-*"].
Proof. split; [exact getLogIndices_eq_ref | by split]. Qed.

(** *** The filter map *)

Lemma filters_fold (key : string) (filters : list Tag) (m : gmap string string) :
  index
    (fold_left (fun (m : gmap string string) item => <[Key item := Value item]> m) filters m)
    key
  = match filterValue key filters with
    | Some v => v
    | None => index m key
    end.
Proof.
  revert m. induction filters as [|item rest IH]; intros m; simpl; [done |].
  rewrite IH. destruct (filterValue key rest) as [v|]; [done |].
  unfold index. case_decide as Hk.
  - by rewrite <- Hk, lookup_insert_eq.
  - by rewrite lookup_insert_ne.
Qed.

Lemma filterValue_last (key v : string) (pre post : list Tag) :
  Forall (fun item => Key item ≠ key) post →
  filterValue key (pre ++ {| Key := key; Value := v |} :: post) = Some v.
Proof.
  intros Hpost.
  assert (filterValue key post = None) as Hnone.
  { induction Hpost as [|item post Hitem _ IH]; simpl; [done |].
    rewrite IH. by case_decide. }
  induction pre as [|item pre IH]; simpl.
  - rewrite Hnone. by case_decide.
  - by rewrite IH.
Qed.

(** *** The loop over the deployment rows *)

Section Resolution.

Context {ElasticClient : Type} (rt : @Runtime ElasticClient) (p : @provider ElasticClient).

Lemma forRange_clients (addon : string) (rows : list LogDeployment.t)
    (acc : list ESClient) :
  (forRange rows
     (fun clients d =>
        new ← rowClient rt p addon d;
        mret (match new with
              | Some c => clients ++ [c]
              | None => clients
              end))
     acc).1
  = acc ++ omap (fun d => (rowClient rt p addon d).1) rows.
Proof.
  revert acc. induction rows as [|d rows IH]; intros acc; simpl.
  - by rewrite app_nil_r.
  - rewrite Logged_bind_fst, IH, Logged_bind_fst. simpl.
    destruct (rowClient rt p addon d).1 as [c|]; simpl; [| done].
    by rewrite <- List.app_assoc.
Qed.

Lemma rangeDeployments_clients (addon : string) (rows : list LogDeployment.t) :
  (rangeDeployments rt p addon rows).1 = omap (fun d => (rowClient rt p addon d).1) rows.
Proof. unfold rangeDeployments. by rewrite forRange_clients. Qed.

End Resolution.

(** *** Client Selector *)

(** A query scoped to a cluster and an addon: the wildcard is stripped,
    the addon is expanded to its sibling group, and the row whose client
    cannot be built is logged and left out.  The returned clients are
    the first component; the second holds the lines logged. *)
Example getESClients_scoped :
  getESClients Sample.rt (Sample.p true) 7 (LogRequest.Build "c2" "k*2" [])
  = ([], [(ERROR, "failed to create elasticsearch client: no Elasticsearch node available")])
  ∧ (getESClients Sample.rt (Sample.p true) 7 (LogRequest.Build "c1" "k*2" [])).1
    = [ {| Client := "http://es1:9200";
           URLs := "http://es1:9200,http://es2:9200";
           LogVersion := "2.0.0";
           Indices := ["rlogs-k1"; "rlogs-k1-*"; "rlogs-k2"; "rlogs-k2-*"] |};
        {| Client := "http://es3:9200";
           URLs := "http://es3:9200";
           LogVersion := "1.0.0";
           Indices := ["spotlogs-k1"; "spotlogs-k1-*"; "spotlogs-k2"; "spotlogs-k2-*"] |} ].
Proof. split; reflexivity. Qed.

Lemma filters_origin (filters : list Tag) :
  index
    (fold_left (fun (m : gmap string string) item => <[Key item := Value item]> m) filters ∅)
    "origin"
  = default "" (filterValue "origin" filters).
Proof. rewrite filters_fold. by destruct (filterValue "origin" filters). Qed.

(** Without cluster name and addon the decision is taken on the value
    the filters carry for "origin". *)
Lemma getESClients_unscoped {ElasticClient : Type}
    (rt : @Runtime ElasticClient) (p : provider) (orgID : Z) (req : LogRequest.t) :
  LogRequest.ClusterName req = "" →
  LogRequest.Addon req = "" →
  getESClients rt p orgID req
  = let origin := default "" (filterValue "origin" (LogRequest.Filters req)) in
    if bool_decide (origin = "sls") then mret (getCenterESClients p ["sls-*"])
    else if bool_decide (origin = "dice") then
      clients ← getESClientsFromLogAnalytics rt p orgID;
      if bool_decide (length clients ≤ 0) then mret (getCenterESClients p ["rlogs-*"])
      else mret clients
    else if bool_decide (origin ≠ "") then mret (getCenterESClients p ["__not-exist__*"])
    else
      clients ← getESClientsFromLogAnalytics rt p orgID;
      mret (getCenterESClients p ["sls-*"] ++ clients).
Proof.
  intros Hc Ha. unfold getESClients. rewrite Hc, Ha, filters_origin.
  by rewrite bool_decide_eq_false_2 by (simpl; lia).
Qed.

(** C2. A request in which exactly one of the cluster name and the
    addon is non-empty resolves to zero clients, an empty result and no
    failure, whatever the organization id and the filters. *)
Theorem getESClients_half_scope {ElasticClient : Type}
    (rt : @Runtime ElasticClient) (p : provider) (orgID : Z) (req : LogRequest.t) :
  (LogRequest.ClusterName req ≠ "" ∧ LogRequest.Addon req = "")
  ∨ (LogRequest.ClusterName req = "" ∧ LogRequest.Addon req ≠ "") →
  getESClients rt p orgID req = ([], []).
Proof.
  intros Hhalf. unfold getESClients.
  destruct Hhalf as [[Hc Ha] | [Hc Ha]]; rewrite Ha || rewrite Hc.
  - apply len_pos in Hc.
    rewrite (bool_decide_eq_true_2 _ Hc). simpl.
    by rewrite Bool.orb_true_r.
  - apply len_pos in Ha.
    by rewrite (bool_decide_eq_true_2 _ Ha).
Qed.

Lemma getESClients_half_scope_witness :
  ((LogRequest.ClusterName (LogRequest.Build "c1" "" []) ≠ ""
    ∧ LogRequest.Addon (LogRequest.Build "c1" "" []) = "")
   ∨ (LogRequest.ClusterName (LogRequest.Build "c1" "" []) = ""
      ∧ LogRequest.Addon (LogRequest.Build "c1" "" []) ≠ ""))
  ∧ getESClients Sample.rt (Sample.p true) 7 (LogRequest.Build "c1" "" []) = ([], []).
Proof.
  assert ((LogRequest.ClusterName (LogRequest.Build "c1" "" []) ≠ ""
           ∧ LogRequest.Addon (LogRequest.Build "c1" "" []) = "")
          ∨ (LogRequest.ClusterName (LogRequest.Build "c1" "" []) = ""
             ∧ LogRequest.Addon (LogRequest.Build "c1" "" []) ≠ "")) as H.
  { left. split; [discriminate | reflexivity]. }
  split; [exact H |].
  exact (getESClients_half_scope Sample.rt (Sample.p true) 7 _ H).
Defined.

(** C1, as stated, fails: a request that carries origin=sls and is also
    scoped to cluster "c1" and addon "k3" resolves to the organization's
    deployments in that cluster, not to the central clients. *)
Lemma getESClients_origin_sls_scoped_counterexample :
  {| Key := "origin"; Value := "sls" |}
    ∈ LogRequest.Filters (LogRequest.Build "c1" "k3" [ {| Key := "origin"; Value := "sls" |} ])
  ∧ (getESClients Sample.rt (Sample.p false) 7
       (LogRequest.Build "c1" "k3" [ {| Key := "origin"; Value := "sls" |} ])).1
    = [ {| Client := "http://es1:9200";
           URLs := "http://es1:9200,http://es2:9200";
           LogVersion := "2.0.0";
           Indices := ["rlogs-k3"; "rlogs-k3-*"] |};
        {| Client := "http://es3:9200";
           URLs := "http://es3:9200";
           LogVersion := "1.0.0";
           Indices := ["spotlogs-k3"; "spotlogs-k3-*"] |} ]
  ∧ (getESClients Sample.rt (Sample.p false) 7
       (LogRequest.Build "c1" "k3" [ {| Key := "origin"; Value := "sls" |} ])).1
    ≠ getCenterESClients (Sample.p false) ["sls-*"].
Proof.
  split; [apply list_elem_of_here |].
  split; [by vm_compute | vm_compute; discriminate].
Qed.

(** C1, amended. For every request with empty cluster name and empty
    addon whose filters carry origin=sls (as the last pair with that
    key), [getESClients] returns exactly the central-cluster clients
    scoped to the single pattern "sls-*": one client, or two when the
    dual-read flag is on; nothing is logged. *)
Theorem getESClients_origin_sls {ElasticClient : Type}
    (rt : @Runtime ElasticClient) (p : provider) (orgID : Z) (req : LogRequest.t) :
  LogRequest.ClusterName req = "" →
  LogRequest.Addon req = "" →
  filterValue "origin" (LogRequest.Filters req) = Some "sls" →
  getESClients rt p orgID req = (getCenterESClients p ["sls-*"], [])
  ∧ length (getESClients rt p orgID req).1 = (if QueryBackES p then 2 else 1)
  ∧ Forall (fun c => Indices c = ["sls-*"]) (getESClients rt p orgID req).1.
Proof.
  intros Hc Ha Hsls.
  assert (getESClients rt p orgID req = (getCenterESClients p ["sls-*"], [])) as ->.
  { rewrite getESClients_unscoped by done. by rewrite Hsls. }
  split; [done |]. unfold getCenterESClients.
  destruct (QueryBackES p); simpl; split; by repeat constructor.
Qed.

Lemma getESClients_origin_sls_witness :
  getESClients Sample.rt (Sample.p true) 7
    (LogRequest.Build "" "" [ {| Key := "origin"; Value := "dice" |};
                              {| Key := "origin"; Value := "sls" |} ])
  = ([ {| Client := "central"; URLs := "-"; LogVersion := ""; Indices := ["sls-*"] |};
       {| Client := "central-back"; URLs := "-b"; LogVersion := ""; Indices := ["sls-*"] |} ],
     []).
Proof.
  exact (proj1 (getESClients_origin_sls Sample.rt (Sample.p true) 7
                  (LogRequest.Build "" "" [ {| Key := "origin"; Value := "dice" |};
                                            {| Key := "origin"; Value := "sls" |} ])
                  eq_refl eq_refl eq_refl)).
Defined.

(** C10. Without cluster name and addon, when the filters hold several
    pairs with key "origin", the last of them decides: the request
    resolves as the request whose only filter is that last pair. *)
Theorem getESClients_last_origin {ElasticClient : Type}
    (rt : @Runtime ElasticClient) (p : provider) (orgID : Z) (req : LogRequest.t)
    (pre post : list Tag) (v : string) :
  LogRequest.ClusterName req = "" →
  LogRequest.Addon req = "" →
  LogRequest.Filters req = pre ++ {| Key := "origin"; Value := v |} :: post →
  Forall (fun item => Key item ≠ "origin") post →
  filterValue "origin" (LogRequest.Filters req) = Some v
  ∧ getESClients rt p orgID req
    = getESClients rt p orgID
        (LogRequest.Build "" "" [ {| Key := "origin"; Value := v |} ]).
Proof.
  intros Hc Ha Hf Hpost.
  assert (filterValue "origin" (LogRequest.Filters req) = Some v) as Hv.
  { rewrite Hf. by apply filterValue_last. }
  split; [done |].
  rewrite !getESClients_unscoped by done.
  by rewrite Hv.
Qed.

Lemma getESClients_last_origin_witness :
  getESClients Sample.rt (Sample.p false) 7
    (LogRequest.Build "" ""
       [ {| Key := "origin"; Value := "sls" |};
         {| Key := "level"; Value := "ERROR" |};
         {| Key := "origin"; Value := "nowhere" |};
         {| Key := "level"; Value := "INFO" |} ])
  = getESClients Sample.rt (Sample.p false) 7
      (LogRequest.Build "" "" [ {| Key := "origin"; Value := "nowhere" |} ]).
Proof.
  refine (proj2 (getESClients_last_origin Sample.rt (Sample.p false) 7
                   (LogRequest.Build "" "" _)
                   [ {| Key := "origin"; Value := "sls" |};
                     {| Key := "level"; Value := "ERROR" |} ]
                   [ {| Key := "level"; Value := "INFO" |} ]
                   "nowhere" eq_refl eq_refl eq_refl _)).
  repeat constructor; discriminate.
Defined.

(** *** Deployment Lookup, one row at a time *)

Lemma filterValue_None (key : string) (filters : list Tag) :
  filterValue key filters = None ↔ Forall (fun item => Key item ≠ key) filters.
Proof.
  induction filters as [|item rest IH]; simpl; [by split |].
  rewrite Forall_cons, <- IH.
  destruct (filterValue key rest) as [v|].
  - split; [done | by intros [_ ?]].
  - case_decide; split; try done. by intros [? _].
Qed.

Lemma omap_cons {A B : Type} (f : A → option B) (x : A) (l : list A) :
  omap f (x :: l) = match f x with Some y => y :: omap f l | None => omap f l end.
Proof. reflexivity. Qed.

Lemma omap_none {A B : Type} (f : A → option B) (l : list A) :
  Forall (fun x => f x = None) l → omap f l = [].
Proof.
  induction 1 as [|x l Hx _ IH]; [done |].
  by rewrite omap_cons, Hx.
Qed.

Lemma clusterNames_loop (clusters : list ClusterInfo) (acc : list string) :
  fold_left (fun names c => names ++ [Name c]) clusters acc = acc ++ (Name <$> clusters).
Proof.
  revert acc. induction clusters as [|c clusters IH]; intros acc; simpl.
  - by rewrite app_nil_r.
  - rewrite IH. by rewrite <- List.app_assoc.
Qed.

Section Rows.

Context {ElasticClient : Type} (rt : @Runtime ElasticClient) (p : @provider ElasticClient).

(** The client a turn of the loop appends, read off the row. *)
Lemma rowClient_Some (addon : string) (d : LogDeployment.t) (c : ESClient) :
  (rowClient rt p addon d).1 = Some c →
  LogDeployment.ESURL d ≠ ""
  ∧ ∃ client,
      elastic_NewClient rt (rowOptions rt d) = inl client
      ∧ c = {| Client := client;
               URLs := LogDeployment.ESURL d;
               LogVersion :=
                 if bool_decide (0 < String.length
                                       (strings.TrimSpace (LogDeployment.CollectorURL d)))
                    || bool_decide (LogDeployment.LogType d = db.LogTypeLogService)
                 then LogVersion2 else LogVersion1;
               Indices :=
                 getLogIndices
                   (if bool_decide (0 < String.length
                                          (strings.TrimSpace (LogDeployment.CollectorURL d)))
                       || bool_decide (LogDeployment.LogType d = db.LogTypeLogService)
                    then "rlogs-" else "spotlogs-")
                   (rowOrgId d) (rowAddons p addon).1 |}.
Proof.
  unfold rowClient. case_bool_decide as Hurl; [done |].
  rewrite Logged_bind_fst.
  destruct (elastic_NewClient rt (rowOptions rt d)) as [client | err]; [| done].
  intros Hc. split; [by rewrite <- len_nonpos |]. exists client. split; [done |].
  destruct (bool_decide _ || bool_decide _); by inversion Hc.
Qed.

Lemma rowClient_built (addon : string) (d : LogDeployment.t) (client : ElasticClient) :
  LogDeployment.ESURL d ≠ "" →
  elastic_NewClient rt (rowOptions rt d) = inl client →
  ∃ c, (rowClient rt p addon d).1 = Some c
       ∧ Client c = client ∧ URLs c = LogDeployment.ESURL d.
Proof.
  intros Hurl Hnew. unfold rowClient.
  rewrite bool_decide_eq_false_2 by (by rewrite len_nonpos).
  rewrite Logged_bind_fst, Hnew.
  destruct (bool_decide _ || bool_decide _); by eexists.
Qed.

Lemma rowClient_skipped (addon : string) (d : LogDeployment.t) :
  LogDeployment.ESURL d = "" → rowClient rt p addon d = mret None.
Proof. intros Hurl. unfold rowClient. by rewrite Hurl. Qed.

Lemma rowClient_wellFormed (addon : string) (d : LogDeployment.t) (c : ESClient) :
  (rowClient rt p addon d).1 = Some c → wellFormed c.
Proof.
  intros (Hurl & client & _ & ->)%rowClient_Some.
  split; simpl; [apply getLogIndices_nonempty | done].
Qed.

Lemma getCenterESClients_wellFormed (indices : list string) :
  indices ≠ [] → Forall wellFormed (getCenterESClients p indices).
Proof.
  intros Hne. unfold getCenterESClients.
  destruct (QueryBackES p); repeat constructor; done.
Qed.

Lemma byCluster_wellFormed (orgID : Z) (addon : string) (clusterNames : list string) :
  Forall wellFormed (getESClientsFromLogAnalyticsByCluster rt p orgID addon clusterNames).1.
Proof.
  unfold getESClientsFromLogAnalyticsByCluster.
  destruct (QueryByOrgIDAndClusters p orgID clusterNames) as [rows err].
  case_bool_decide; [by constructor |].
  rewrite rangeDeployments_clients. apply Forall_forall.
  intros c (d & _ & Hd)%list_elem_of_omap.
  by eapply rowClient_wellFormed.
Qed.

Lemma logAnalytics_wellFormed (orgID : Z) :
  Forall wellFormed (getESClientsFromLogAnalytics rt p orgID).1.
Proof.
  unfold getESClientsFromLogAnalytics.
  destruct (ListClusters p "" (uint64 orgID)) as [clusters err].
  case_bool_decide; [by constructor | apply byCluster_wellFormed].
Qed.

(** The organization's own clients, when both lookups answer. *)
Lemma logAnalytics_clients (orgID : Z) (clusters : list ClusterInfo)
    (rows : list LogDeployment.t) :
  ListClusters p "" (uint64 orgID) = (clusters, None) →
  QueryByOrgIDAndClusters p orgID (Name <$> clusters) = (rows, None) →
  (getESClientsFromLogAnalytics rt p orgID).1
  = omap (fun d => (rowClient rt p "" d).1) rows.
Proof.
  intros Hl Hq. unfold getESClientsFromLogAnalytics. rewrite Hl.
  rewrite bool_decide_eq_false_2 by (by intros [? ?]).
  rewrite clusterNames_loop. simpl.
  unfold getESClientsFromLogAnalyticsByCluster. rewrite Hq.
  rewrite bool_decide_eq_false_2 by (by intros [? ?]).
  apply rangeDeployments_clients.
Qed.

End Rows.

(** *** The sibling group of an addon *)

Example keepFirst_order : keepFirst ["b"; "a"; "b"; "c"; "a"] = ["b"; "a"; "c"].
Proof. reflexivity. Qed.

Lemma keepFirst_elem_of (keys : list string) (k : string) :
  k ∈ keepFirst keys ↔ k ∈ keys.
Proof.
  induction keys as [|k0 keys IH]; simpl; [done |].
  rewrite !elem_of_cons, list_elem_of_filter, IH.
  destruct (decide (k = k0)) as [-> | Hk]; [split; by left |].
  split; [intros [? | [_ ?]]; [by left | by right] |].
  intros [? | ?]; [done | by right].
Qed.

Lemma keepFirst_NoDup (keys : list string) : NoDup (keepFirst keys).
Proof.
  induction keys as [|k0 keys IH]; simpl; [constructor |].
  apply NoDup_cons. split; [| by apply NoDup_filter].
  rewrite list_elem_of_filter. by intros [? _].
Qed.

Lemma keepFirst_sublist (keys : list string) : keepFirst keys `sublist_of` keys.
Proof.
  induction keys as [|k0 keys IH]; simpl; [done |].
  apply sublist_skip. etrans; [apply sublist_filter | done].
Qed.

Lemma appendKey_loop (instances : list LogInstance.t)
    (addons : list string) (keyCaches : gmap string bool) :
  (fold_left appendKey instances (addons, keyCaches)).1
  = addons ++ filter (fun k => keyCaches !! k = None)
                (keepFirst (LogInstance.LogKey <$> instances)).
Proof.
  revert addons keyCaches.
  induction instances as [|i instances IH]; intros addons keyCaches.
  - simpl. by rewrite app_nil_r.
  - rewrite fmap_cons. cbn [fold_left keepFirst]. rewrite filter_cons.
    unfold appendKey at 2.
    destruct (keyCaches !! LogInstance.LogKey i) as [b|] eqn:Hseen.
    + rewrite decide_True by done. rewrite decide_False by done.
      rewrite IH. f_equal. symmetry. apply list_filter_filter_l.
      intros k Hk ->. congruence.
    + rewrite decide_False by (by intros [? ?]). rewrite decide_True by done.
      rewrite IH, <- List.app_assoc. simpl. do 2 f_equal.
      rewrite list_filter_filter. apply list_filter_iff.
      intros k. rewrite lookup_insert_None.
      split; (intros [? ?]; split; [done | congruence]).
Qed.

Lemma rowAddons_eq_ref {ElasticClient : Type} (p : @provider ElasticClient) (addon : string) :
  addon ≠ "" → (rowAddons p addon).1 = siblingGroup_ref p addon.
Proof.
  intros Hne. unfold rowAddons, siblingGroup_ref.
  rewrite bool_decide_eq_true_2 by (by apply len_pos).
  destruct (GetByLogKey p addon) as [logInstance err]. simpl.
  rewrite Logged_bind_fst.
  destruct logInstance as [logInstance|]; [| done].
  destruct (GetListByClusterAndProjectIdAndWorkspace p _ _ _) as [same err']. simpl.
  rewrite Logged_bind_fst. simpl.
  rewrite appendKey_loop. simpl.
  induction (keepFirst (LogInstance.LogKey <$> same)) as [|k l IH]; [done |].
  rewrite filter_cons, decide_True by apply lookup_empty. by f_equal.
Qed.

(** *** Properties of the resolved client list *)

(** C4. Every client returned by [getESClients], on the cluster and
    addon path, on every origin path and on the union path, has at
    least one index pattern and a non-empty URLs string. *)
Theorem getESClients_wellFormed {ElasticClient : Type}
    (rt : @Runtime ElasticClient) (p : provider) (orgID : Z) (req : LogRequest.t) :
  Forall wellFormed (getESClients rt p orgID req).1.
Proof.
  unfold getESClients.
  destruct (bool_decide _ || bool_decide _).
  - destruct (bool_decide _ || bool_decide _); [by constructor |].
    apply byCluster_wellFormed.
  - pose proof (logAnalytics_wellFormed rt p orgID) as Hown.
    repeat case_bool_decide; rewrite ?Logged_bind_fst;
      try case_bool_decide; simpl;
      rewrite ?Forall_app; auto using getCenterESClients_wellFormed.
Qed.

(** C5. With empty cluster name and addon, when the filters carry no
    "origin" key or carry it with an empty value, [getESClients]
    returns the central clients scoped to "sls-*" followed by every
    client resolved from the organization's own deployments across all
    its clusters; nothing is dropped from either group. *)
Theorem getESClients_no_origin {ElasticClient : Type}
    (rt : @Runtime ElasticClient) (p : provider) (orgID : Z) (req : LogRequest.t) :
  LogRequest.ClusterName req = "" →
  LogRequest.Addon req = "" →
  Forall (fun item => Key item ≠ "origin") (LogRequest.Filters req)
  ∨ filterValue "origin" (LogRequest.Filters req) = Some "" →
  (getESClients rt p orgID req).1
  = getCenterESClients p ["sls-*"] ++ (getESClientsFromLogAnalytics rt p orgID).1
  ∧ length (getESClients rt p orgID req).1
    = length (getCenterESClients p ["sls-*"])
      + length (getESClientsFromLogAnalytics rt p orgID).1
  ∧ ∀ clusters rows,
      ListClusters p "" (uint64 orgID) = (clusters, None) →
      QueryByOrgIDAndClusters p orgID (Name <$> clusters) = (rows, None) →
      (getESClients rt p orgID req).1
      = getCenterESClients p ["sls-*"] ++ omap (fun d => (rowClient rt p "" d).1) rows.
Proof.
  intros Hc Ha Horigin.
  assert (default "" (filterValue "origin" (LogRequest.Filters req)) = "") as Hv.
  { destruct Horigin as [Hno | ->]; [| done].
    apply filterValue_None in Hno. by rewrite Hno. }
  assert ((getESClients rt p orgID req).1
          = getCenterESClients p ["sls-*"] ++ (getESClientsFromLogAnalytics rt p orgID).1)
    as Heq.
  { rewrite getESClients_unscoped by done. simpl. rewrite Hv. simpl.
    by rewrite Logged_bind_fst. }
  split; [done |]. split; [by rewrite Heq, length_app |].
  intros clusters rows Hl Hq. rewrite Heq. f_equal. by eapply logAnalytics_clients.
Qed.

Lemma getESClients_no_origin_witness :
  (getESClients Sample.rt (Sample.p true) 7
     (LogRequest.Build "" "" [ {| Key := "level"; Value := "ERROR" |} ])).1
  = [ {| Client := "central"; URLs := "-"; LogVersion := ""; Indices := ["sls-*"] |};
      {| Client := "central-back"; URLs := "-b"; LogVersion := ""; Indices := ["sls-*"] |};
      {| Client := "http://es1:9200";
         URLs := "http://es1:9200,http://es2:9200";
         LogVersion := "2.0.0";
         Indices := ["rlogs-7"] |};
      {| Client := "http://es3:9200";
         URLs := "http://es3:9200";
         LogVersion := "1.0.0";
         Indices := ["spotlogs-*"] |} ].
Proof.
  refine (proj1 (getESClients_no_origin Sample.rt (Sample.p true) 7
                   (LogRequest.Build "" "" [ {| Key := "level"; Value := "ERROR" |} ])
                   eq_refl eq_refl _)).
  left. repeat constructor. discriminate.
Defined.

(** C6. With empty cluster name and addon and filters carrying
    origin=dice: when resolving the organization's own deployments
    yields zero clients, [getESClients] returns the central clients
    scoped to "rlogs-*"; otherwise exactly the organization's own
    clients.  Zero clients arise when a lookup fails, when no row is
    registered and when no row yields a client. *)
Theorem getESClients_origin_dice {ElasticClient : Type}
    (rt : @Runtime ElasticClient) (p : provider) (orgID : Z) (req : LogRequest.t) :
  LogRequest.ClusterName req = "" →
  LogRequest.Addon req = "" →
  filterValue "origin" (LogRequest.Filters req) = Some "dice" →
  ((getESClientsFromLogAnalytics rt p orgID).1 = [] →
     (getESClients rt p orgID req).1 = getCenterESClients p ["rlogs-*"])
  ∧ ((getESClientsFromLogAnalytics rt p orgID).1 ≠ [] →
       (getESClients rt p orgID req).1 = (getESClientsFromLogAnalytics rt p orgID).1)
  ∧ (∀ clusters e,
       ListClusters p "" (uint64 orgID) = (clusters, Some e) →
       (getESClients rt p orgID req).1 = getCenterESClients p ["rlogs-*"])
  ∧ (∀ clusters rows e,
       ListClusters p "" (uint64 orgID) = (clusters, None) →
       QueryByOrgIDAndClusters p orgID (Name <$> clusters) = (rows, Some e) →
       (getESClients rt p orgID req).1 = getCenterESClients p ["rlogs-*"])
  ∧ (∀ clusters rows,
       ListClusters p "" (uint64 orgID) = (clusters, None) →
       QueryByOrgIDAndClusters p orgID (Name <$> clusters) = (rows, None) →
       Forall (fun d => (rowClient rt p "" d).1 = None) rows →
       (getESClients rt p orgID req).1 = getCenterESClients p ["rlogs-*"]).
Proof.
  intros Hc Ha Hdice.
  assert ((getESClientsFromLogAnalytics rt p orgID).1 = [] →
          (getESClients rt p orgID req).1 = getCenterESClients p ["rlogs-*"]) as Hzero.
  { intros Hnil. rewrite getESClients_unscoped by done. rewrite Hdice. simpl.
    rewrite Logged_bind_fst, Hnil. by simpl. }
  split; [done |]. split; [| repeat split].
  - intros Hown. rewrite getESClients_unscoped by done. rewrite Hdice. simpl.
    rewrite Logged_bind_fst.
    destruct (getESClientsFromLogAnalytics rt p orgID).1 as [|c own]; [done |].
    by simpl.
  - intros clusters e Hl. apply Hzero.
    unfold getESClientsFromLogAnalytics. by rewrite Hl.
  - intros clusters rows e Hl Hq. apply Hzero.
    unfold getESClientsFromLogAnalytics. rewrite Hl. simpl.
    rewrite clusterNames_loop. simpl.
    unfold getESClientsFromLogAnalyticsByCluster. by rewrite Hq.
  - intros clusters rows Hl Hq Hnone. apply Hzero.
    rewrite (logAnalytics_clients rt p orgID clusters rows Hl Hq).
    by apply omap_none.
Qed.

Lemma getESClients_origin_dice_witness :
  (getESClients Sample.rt (Sample.p false) 8
     (LogRequest.Build "" "" [ {| Key := "origin"; Value := "dice" |} ])).1
  = [ {| Client := "central"; URLs := "-"; LogVersion := ""; Indices := ["rlogs-*"] |} ].
Proof.
  exact (proj1 (getESClients_origin_dice Sample.rt (Sample.p false) 8
                  (LogRequest.Build "" "" [ {| Key := "origin"; Value := "dice" |} ])
                  eq_refl eq_refl eq_refl) eq_refl).
Defined.

(** *** Deployment Lookup *)

(** C7. For every deployment row materialized into a client: when the
    trimmed collector URL is non-empty or the log type is "log-service"
    the client has version "2.0.0" and its indices are named under
    "rlogs-"; otherwise it has version "1.0.0" and its indices are named
    under "spotlogs-". *)
Theorem rowClient_version_prefix {ElasticClient : Type}
    (rt : @Runtime ElasticClient) (p : provider) (addon : string)
    (d : LogDeployment.t) (c : ESClient) :
  (rowClient rt p addon d).1 = Some c →
  (strings.TrimSpace (LogDeployment.CollectorURL d) ≠ ""
   ∨ LogDeployment.LogType d = "log-service" →
     LogVersion c = "2.0.0"
     ∧ Indices c = getLogIndices "rlogs-" (rowOrgId d) (rowAddons p addon).1
     ∧ Forall (fun i => String.prefix "rlogs-" i = true) (Indices c))
  ∧ (¬ (strings.TrimSpace (LogDeployment.CollectorURL d) ≠ ""
        ∨ LogDeployment.LogType d = "log-service") →
       LogVersion c = "1.0.0"
       ∧ Indices c = getLogIndices "spotlogs-" (rowOrgId d) (rowAddons p addon).1
       ∧ Forall (fun i => String.prefix "spotlogs-" i = true) (Indices c)).
Proof.
  intros (_ & client & _ & ->)%rowClient_Some. simpl.
  set (b := bool_decide _ || bool_decide _).
  assert (b = true ↔
          strings.TrimSpace (LogDeployment.CollectorURL d) ≠ ""
          ∨ LogDeployment.LogType d = "log-service") as Hb.
  { unfold b. by rewrite orb_true_iff, !bool_decide_eq_true, len_pos. }
  destruct b; split; intros Hcond.
  - repeat split. apply getLogIndices_prefix.
  - exfalso. by apply Hcond, Hb.
  - apply Hb in Hcond. discriminate.
  - repeat split. apply getLogIndices_prefix.
Qed.

Lemma rowClient_version_prefix_witness :
  (rowClient Sample.rt (Sample.p false) "k3" Sample.legacy).1
  = Some {| Client := "http://es3:9200"; URLs := "http://es3:9200";
            LogVersion := "1.0.0"; Indices := ["spotlogs-k3"; "spotlogs-k3-*"] |}
  ∧ ¬ (strings.TrimSpace (LogDeployment.CollectorURL Sample.legacy) ≠ ""
       ∨ LogDeployment.LogType Sample.legacy = "log-service")
  ∧ Forall (fun i => String.prefix "spotlogs-" i = true) ["spotlogs-k3"; "spotlogs-k3-*"].
Proof.
  assert (¬ (strings.TrimSpace (LogDeployment.CollectorURL Sample.legacy) ≠ ""
             ∨ LogDeployment.LogType Sample.legacy = "log-service")) as Hcond.
  { intros [Hurl | Htype]; [apply Hurl; reflexivity | discriminate Htype]. }
  split; [reflexivity |]. split; [exact Hcond |].
  exact (proj2 (proj2 (proj2
    (rowClient_version_prefix Sample.rt (Sample.p false) "k3" Sample.legacy
       {| Client := "http://es3:9200"; URLs := "http://es3:9200";
          LogVersion := "1.0.0"; Indices := ["spotlogs-k3"; "spotlogs-k3-*"] |}
       eq_refl) Hcond))).
Defined.

(** C8. For a non-empty addon the addon keys used to name the indices
    of a row are: when the instance of the addon key is found, the log
    keys of the instances sharing its (cluster, project id, workspace),
    deduplicated with the first occurrence kept in first-seen order;
    when it is not found, the supplied addon alone. *)
Theorem rowAddons_sibling_group {ElasticClient : Type}
    (rt : @Runtime ElasticClient) (p : provider) (addon : string) :
  addon ≠ "" →
  (rowAddons p addon).1 = siblingGroup_ref p addon
  ∧ ((GetByLogKey p addon).1 = None → (rowAddons p addon).1 = [addon])
  ∧ ∀ d c, (rowClient rt p addon d).1 = Some c →
           ∃ prefix, Indices c = getLogIndices prefix (rowOrgId d) (siblingGroup_ref p addon).
Proof.
  intros Hne. pose proof (rowAddons_eq_ref p addon Hne) as Href.
  split; [done |]. split.
  - intros Hnone. rewrite Href. unfold siblingGroup_ref. by rewrite Hnone.
  - intros d c (_ & client & _ & ->)%rowClient_Some. simpl.
    rewrite Href. by eexists.
Qed.

Lemma rowAddons_sibling_group_witness :
  (rowAddons (Sample.p false) "k2").1 = ["k1"; "k2"].
Proof.
  refine (eq_trans
            (proj1 (rowAddons_sibling_group Sample.rt (Sample.p false) "k2" _))
            eq_refl).
  discriminate.
Defined.

(** The logger obeys the laws that let a loop be cut in two. *)
Lemma Logged_bind_ret {A B : Type} (a : A) (k : A -> Logged B) : mret a ≫= k = k a.
Proof. unfold mbind, mret, Logged_bind, Logged_ret. by destruct (k a). Qed.

Lemma Logged_bind_assoc {A B C : Type} (m : Logged A) (k : A -> Logged B)
    (k' : B -> Logged C) :
  (m ≫= k) ≫= k' = m ≫= (fun a => k a ≫= k').
Proof.
  unfold mbind, Logged_bind. destruct m as [a out1].
  destruct (k a) as [b out2]. destruct (k' b) as [c out3].
  by rewrite List.app_assoc.
Qed.

Lemma Logged_bind_ext {A B : Type} (m : Logged A) (k k' : A -> Logged B) :
  (∀ a, k a = k' a) → m ≫= k = m ≫= k'.
Proof.
  intros Hk. unfold mbind, Logged_bind. destruct m as [a out1]. by rewrite Hk.
Qed.

Lemma forRange_cons {A S : Type} (x : A) (l : list A) (body : S -> A -> Logged S) (s : S) :
  forRange (x :: l) body s = body s x ≫= forRange l body.
Proof. reflexivity. Qed.

Lemma forRange_app {A S : Type} (l1 l2 : list A) (body : S -> A -> Logged S) (s : S) :
  forRange (l1 ++ l2) body s = forRange l1 body s ≫= forRange l2 body.
Proof.
  revert s. induction l1 as [|x l1 IH]; intros s.
  - symmetry. exact (Logged_bind_ret s (forRange l2 body)).
  - etrans; [| symmetry; exact (Logged_bind_assoc (body s x) _ _)].
    exact (Logged_bind_ext (body s x) _ _ IH).
Qed.

(** C9. A deployment row with an empty connection URL is skipped: it
    contributes no client, and the batch resolves as the batch without
    it; each row contributes on its own, whatever the other rows; and a
    batch whose rows all have a URL and a client that can be built
    yields exactly one client per row, in row order. *)
Theorem rangeDeployments_skips_empty_url {ElasticClient : Type}
    (rt : @Runtime ElasticClient) (p : provider) (addon : string)
    (rows1 rows2 : list LogDeployment.t) (d : LogDeployment.t) :
  LogDeployment.ESURL d = "" →
  rowClient rt p addon d = (None, [])
  ∧ rangeDeployments rt p addon (rows1 ++ d :: rows2)
    = rangeDeployments rt p addon (rows1 ++ rows2)
  ∧ (∀ rows,
       (rangeDeployments rt p addon rows).1
       = omap (fun d' => (rowClient rt p addon d').1) rows)
  ∧ (∀ rows,
       Forall (fun d' => LogDeployment.ESURL d' ≠ ""
                         ∧ ∃ client, elastic_NewClient rt (rowOptions rt d') = inl client)
         rows →
       length (rangeDeployments rt p addon rows).1 = length rows
       ∧ Forall2
           (fun d' c => (rowClient rt p addon d').1 = Some c
                        ∧ URLs c = LogDeployment.ESURL d'
                        ∧ elastic_NewClient rt (rowOptions rt d') = inl (Client c))
           rows (rangeDeployments rt p addon rows).1).
Proof.
  intros Hurl. pose proof (rowClient_skipped rt p addon d Hurl) as Hskip.
  split; [exact Hskip |]. split; [| split].
  - unfold rangeDeployments. rewrite !forRange_app.
    apply Logged_bind_ext. intros clients.
    by rewrite forRange_cons, Hskip, !Logged_bind_ret.
  - apply rangeDeployments_clients.
  - intros rows Hrows.
    assert (Forall2
              (fun d' c => (rowClient rt p addon d').1 = Some c
                           ∧ URLs c = LogDeployment.ESURL d'
                           ∧ elastic_NewClient rt (rowOptions rt d') = inl (Client c))
              rows (rangeDeployments rt p addon rows).1) as Hall.
    { rewrite rangeDeployments_clients.
      induction Hrows as [|d' rows [Hd' [client Hnew]] _ IH]; [constructor |].
      destruct (rowClient_built rt p addon d' client Hd' Hnew) as (c & Hc & Hcc & Hcu).
      rewrite omap_cons, Hc. constructor; [| exact IH].
      by rewrite Hcc. }
    split; [| done]. symmetry. by eapply Forall2_length.
Qed.

Lemma rangeDeployments_skips_empty_url_witness :
  LogDeployment.ESURL Sample.unconfigured = ""
  ∧ rangeDeployments Sample.rt (Sample.p false) ""
      ([Sample.service] ++ Sample.unconfigured :: [Sample.legacy; Sample.unreachable])
    = rangeDeployments Sample.rt (Sample.p false) ""
        ([Sample.service] ++ [Sample.legacy; Sample.unreachable]).
Proof.
  split; [reflexivity |].
  exact (proj1 (proj2
    (rangeDeployments_skips_empty_url Sample.rt (Sample.p false) ""
       [Sample.service] [Sample.legacy; Sample.unreachable] Sample.unconfigured
       eq_refl))).
Defined.

(** ** Further properties of the code *)

(** *** Client Selector *)

(** X1. Without cluster name and addon, every origin value other than
    the empty one, "sls" and "dice" routes to the central clients on
    the pattern that matches no index; no table is read and nothing is
    logged. *)
Theorem getESClients_origin_unknown {ElasticClient : Type}
    (rt : @Runtime ElasticClient) (p : provider) (orgID : Z) (req : LogRequest.t)
    (v : string) :
  LogRequest.ClusterName req = "" →
  LogRequest.Addon req = "" →
  filterValue "origin" (LogRequest.Filters req) = Some v →
  v ≠ "" → v ≠ "sls" → v ≠ "dice" →
  getESClients rt p orgID req = (getCenterESClients p ["__not-exist__*"], []).
Proof.
  intros Hc Ha Hv Hne Hsls Hdice.
  rewrite getESClients_unscoped by done. rewrite Hv. simpl.
  rewrite !bool_decide_eq_false_2 by done.
  by rewrite bool_decide_eq_true_2 by done.
Qed.

Lemma getESClients_origin_unknown_witness :
  getESClients Sample.rt (Sample.p true) 7
    (LogRequest.Build "" "" [ {| Key := "origin"; Value := "k8s" |} ])
  = ([ {| Client := "central"; URLs := "-"; LogVersion := "";
          Indices := ["__not-exist__*"] |};
       {| Client := "central-back"; URLs := "-b"; LogVersion := "";
          Indices := ["__not-exist__*"] |} ],
     []).
Proof.
  refine (getESClients_origin_unknown Sample.rt (Sample.p true) 7
            (LogRequest.Build "" "" [ {| Key := "origin"; Value := "k8s" |} ])
            "k8s" eq_refl eq_refl eq_refl _ _ _); discriminate.
Defined.

Lemma getCenterESClients_nonempty {ElasticClient : Type} (p : @provider ElasticClient)
    (indices : list string) :
  getCenterESClients p indices ≠ [].
Proof. unfold getCenterESClients. by destruct (QueryBackES p). Qed.

(** X2. A request without cluster name and addon never resolves to an
    empty client list, whatever its filters and whatever the registry
    and the tables answer. *)
Theorem getESClients_unscoped_nonempty {ElasticClient : Type}
    (rt : @Runtime ElasticClient) (p : provider) (orgID : Z) (req : LogRequest.t) :
  LogRequest.ClusterName req = "" →
  LogRequest.Addon req = "" →
  (getESClients rt p orgID req).1 ≠ [].
Proof.
  intros Hc Ha. rewrite getESClients_unscoped by done. simpl.
  pose proof (getCenterESClients_nonempty p) as Hcenter.
  case_bool_decide; [apply Hcenter |].
  case_bool_decide.
  { rewrite Logged_bind_fst.
    destruct (getESClientsFromLogAnalytics rt p orgID).1 as [|c own];
      simpl; [apply Hcenter | done]. }
  case_bool_decide; [apply Hcenter |].
  rewrite Logged_bind_fst. simpl.
  intros [Hnil _]%app_eq_nil. by eapply Hcenter.
Qed.

Lemma getESClients_unscoped_nonempty_witness :
  (getESClients Sample.rt (Sample.p false) 8
     (LogRequest.Build "" "" [ {| Key := "origin"; Value := "dice" |} ])).1 ≠ [].
Proof.
  exact (getESClients_unscoped_nonempty Sample.rt (Sample.p false) 8
           (LogRequest.Build "" "" [ {| Key := "origin"; Value := "dice" |} ])
           eq_refl eq_refl).
Defined.

Lemma getESClients_scoped_eq {ElasticClient : Type}
    (rt : @Runtime ElasticClient) (p : provider) (orgID : Z) (req : LogRequest.t) :
  LogRequest.ClusterName req ≠ "" →
  LogRequest.Addon req ≠ "" →
  getESClients rt p orgID req
  = getESClientsFromLogAnalyticsByCluster rt p orgID
      (strings.ReplaceAll (LogRequest.Addon req) "*" "") [LogRequest.ClusterName req].
Proof.
  intros Hc%len_pos Ha%len_pos. unfold getESClients.
  rewrite (bool_decide_eq_true_2 _ Hc). simpl.
  by rewrite !bool_decide_eq_false_2 by lia.
Qed.

(** X3. When both the cluster name and the addon are given, the filters
    play no part: two requests with the same cluster name and addon
    resolve alike, origin pair or not. *)
Theorem getESClients_scoped_ignores_filters {ElasticClient : Type}
    (rt : @Runtime ElasticClient) (p : provider) (orgID : Z) (req req' : LogRequest.t) :
  LogRequest.ClusterName req ≠ "" →
  LogRequest.Addon req ≠ "" →
  LogRequest.ClusterName req' = LogRequest.ClusterName req →
  LogRequest.Addon req' = LogRequest.Addon req →
  getESClients rt p orgID req' = getESClients rt p orgID req.
Proof.
  intros Hc Ha Hc' Ha'.
  rewrite !getESClients_scoped_eq by congruence.
  by rewrite Hc', Ha'.
Qed.

Lemma getESClients_scoped_ignores_filters_witness :
  getESClients Sample.rt (Sample.p true) 7
    (LogRequest.Build "c1" "k3" [ {| Key := "origin"; Value := "sls" |} ])
  = getESClients Sample.rt (Sample.p true) 7 (LogRequest.Build "c1" "k3" []).
Proof.
  refine (getESClients_scoped_ignores_filters Sample.rt (Sample.p true) 7
            (LogRequest.Build "c1" "k3" [])
            (LogRequest.Build "c1" "k3" [ {| Key := "origin"; Value := "sls" |} ])
            _ _ eq_refl eq_refl); discriminate.
Defined.

Lemma ReplaceAll_star_cons (c : ascii) (s : string) :
  strings.ReplaceAll (String c s) "*" ""
  = if decide (c = "*"%char) then strings.ReplaceAll s "*" ""
    else String c (strings.ReplaceAll s "*" "").
Proof.
  unfold strings.ReplaceAll. cbn [strings.replaceFrom String.prefix].
  destruct (ascii_dec "*" c) as [<- | Hne].
  - rewrite decide_True by done. by destruct s.
  - by rewrite decide_False by congruence.
Qed.

Lemma ReplaceAll_star_idem (s : string) :
  strings.ReplaceAll (strings.ReplaceAll s "*" "") "*" "" = strings.ReplaceAll s "*" "".
Proof.
  induction s as [|c s IH]; [done |].
  rewrite ReplaceAll_star_cons. case_decide as Hc; [done |].
  rewrite ReplaceAll_star_cons, decide_False by done. by rewrite IH.
Qed.

(** X4. The wildcard characters of the addon are not part of the key:
    when something is left of the addon without them, the request
    resolves exactly as the request made with the stripped addon. *)
Theorem getESClients_addon_wildcards {ElasticClient : Type}
    (rt : @Runtime ElasticClient) (p : provider) (orgID : Z) (req : LogRequest.t) :
  LogRequest.ClusterName req ≠ "" →
  strings.ReplaceAll (LogRequest.Addon req) "*" "" ≠ "" →
  getESClients rt p orgID req
  = getESClients rt p orgID
      (LogRequest.Build (LogRequest.ClusterName req)
         (strings.ReplaceAll (LogRequest.Addon req) "*" "")
         (LogRequest.Filters req)).
Proof.
  intros Hc Hstripped.
  assert (LogRequest.Addon req ≠ "") as Ha.
  { intros Ha. by rewrite Ha in Hstripped. }
  rewrite !getESClients_scoped_eq by done.
  cbn [LogRequest.ClusterName LogRequest.Addon].
  by rewrite ReplaceAll_star_idem.
Qed.

Lemma getESClients_addon_wildcards_witness :
  getESClients Sample.rt (Sample.p false) 7 (LogRequest.Build "c1" "*k*2*" [])
  = getESClients Sample.rt (Sample.p false) 7 (LogRequest.Build "c1" "k2" []).
Proof.
  refine (getESClients_addon_wildcards Sample.rt (Sample.p false) 7
            (LogRequest.Build "c1" "*k*2*" []) _ _); discriminate.
Defined.

(** *** Index names of a row *)

Lemma rowOrgId_scope (d : LogDeployment.t) (prefix : string) :
  (if decide (rowOrgId d ≠ "") then [prefix +:+ rowOrgId d] else [prefix +:+ "*"])
  = [prefix +:+ (if decide (LogDeployment.LogType d = "log-analytics"
                            ∨ LogDeployment.OrgID d = "")
                 then "*" else LogDeployment.OrgID d)].
Proof.
  unfold rowOrgId. case_bool_decide as Hla.
  - rewrite decide_False by (intros Hne; by apply Hne).
    by rewrite decide_True by (by left).
  - destruct (decide (LogDeployment.OrgID d = "")) as [He | Hne].
    + rewrite He. rewrite decide_False by (intros Hne; by apply Hne).
      by rewrite decide_True by (by right).
    + rewrite decide_True by done.
      by rewrite decide_False by (by intros [? | ?]).
Qed.

Lemma rowClient_Indices {ElasticClient : Type}
    (rt : @Runtime ElasticClient) (p : provider) (addon : string)
    (d : LogDeployment.t) (c : ESClient) :
  (rowClient rt p addon d).1 = Some c →
  (rowAddons p addon).1 = [] →
  Indices c = [orgIndex d].
Proof.
  intros (_ & client & _ & ->)%rowClient_Some Hnone. simpl. rewrite Hnone.
  rewrite getLogIndices_eq_ref. unfold getLogIndices_ref, orgIndex.
  rewrite rowOrgId_scope. do 2 f_equal.
  assert ((bool_decide (0 < String.length
                              (strings.TrimSpace (LogDeployment.CollectorURL d)))
           || bool_decide (LogDeployment.LogType d = db.LogTypeLogService)) = true
          ↔ strings.TrimSpace (LogDeployment.CollectorURL d) ≠ ""
            ∨ LogDeployment.LogType d = "log-service") as Hb.
  { by rewrite orb_true_iff, !bool_decide_eq_true, len_pos. }
  destruct (bool_decide _ || bool_decide _).
  - by rewrite decide_True by (by apply Hb).
  - by rewrite decide_False by (intros Hc; apply Hb in Hc; discriminate).
Qed.

(** X5. Without addon, the client of a deployment row reads one index,
    the organization-level index of the row: the prefix follows the
    collector URL and the log type, the scope is the row's organization
    id, or the wildcard for a log-analytics row and for a row without
    organization id.  Nothing is logged for such a row. *)
Theorem rowClient_org_index {ElasticClient : Type}
    (rt : @Runtime ElasticClient) (p : provider) (d : LogDeployment.t) (c : ESClient) :
  (rowClient rt p "" d).1 = Some c →
  Indices c = [orgIndex d] ∧ (rowClient rt p "" d).2 = [].
Proof.
  intros Hc. split; [by eapply rowClient_Indices |].
  apply rowClient_Some in Hc as (Hurl & client & Hnew & _).
  unfold rowClient. rewrite bool_decide_eq_false_2 by (by rewrite len_nonpos).
  unfold rowAddons. simpl. rewrite Hnew.
  by destruct (bool_decide _ || bool_decide _).
Qed.

Lemma rowClient_org_index_witness :
  (rowClient Sample.rt (Sample.p false) "" Sample.legacy).1
  = Some {| Client := "http://es3:9200"; URLs := "http://es3:9200";
            LogVersion := "1.0.0"; Indices := ["spotlogs-*"] |}
  ∧ Indices {| Client := "http://es3:9200"; URLs := "http://es3:9200";
               LogVersion := "1.0.0"; Indices := ["spotlogs-*"] |}
    = [orgIndex Sample.legacy].
Proof.
  split; [reflexivity |].
  exact (proj1 (rowClient_org_index Sample.rt (Sample.p false) Sample.legacy
                  {| Client := "http://es3:9200"; URLs := "http://es3:9200";
                     LogVersion := "1.0.0"; Indices := ["spotlogs-*"] |} eq_refl)).
Defined.

(** X6. An addon made of wildcards only restricts nothing: with a
    cluster name, the request resolves as the lookup of that cluster
    without addon, and every client reads the single organization-level
    index of its row. *)
Theorem getESClients_wildcard_only {ElasticClient : Type}
    (rt : @Runtime ElasticClient) (p : provider) (orgID : Z) (req : LogRequest.t) :
  LogRequest.ClusterName req ≠ "" →
  LogRequest.Addon req ≠ "" →
  strings.ReplaceAll (LogRequest.Addon req) "*" "" = "" →
  getESClients rt p orgID req
  = getESClientsFromLogAnalyticsByCluster rt p orgID "" [LogRequest.ClusterName req]
  ∧ Forall
      (fun c => ∃ d, d ∈ (QueryByOrgIDAndClusters p orgID [LogRequest.ClusterName req]).1
                     ∧ URLs c = LogDeployment.ESURL d
                     ∧ Indices c = [orgIndex d])
      (getESClients rt p orgID req).1.
Proof.
  intros Hc Ha Hstar.
  assert (getESClients rt p orgID req
          = getESClientsFromLogAnalyticsByCluster rt p orgID ""
              [LogRequest.ClusterName req]) as Heq.
  { rewrite getESClients_scoped_eq by done. by rewrite Hstar. }
  split; [done |]. rewrite Heq.
  unfold getESClientsFromLogAnalyticsByCluster.
  destruct (QueryByOrgIDAndClusters p orgID [LogRequest.ClusterName req]) as [rows err].
  case_bool_decide; [by constructor |].
  rewrite rangeDeployments_clients. apply Forall_forall.
  intros c (d & Hd & Hdc)%list_elem_of_omap. exists d.
  split; [done |]. split.
  - by apply rowClient_Some in Hdc as (_ & client & _ & ->).
  - by eapply rowClient_Indices.
Qed.

Lemma getESClients_wildcard_only_witness :
  (getESClients Sample.rt (Sample.p false) 7 (LogRequest.Build "c1" "**" [])).1
  = [ {| Client := "http://es1:9200";
         URLs := "http://es1:9200,http://es2:9200";
         LogVersion := "2.0.0";
         Indices := ["rlogs-7"] |};
      {| Client := "http://es3:9200";
         URLs := "http://es3:9200";
         LogVersion := "1.0.0";
         Indices := ["spotlogs-*"] |} ].
Proof.
  refine (eq_trans
            (f_equal fst
               (proj1 (getESClients_wildcard_only Sample.rt (Sample.p false) 7
                         (LogRequest.Build "c1" "**" []) _ _ eq_refl)))
            eq_refl); discriminate.
Defined.

(** X7. When the instance of the addon is found but no instance is
    listed for its cluster, project and workspace (an empty or failed
    listing), the addon restricts nothing: the client of a row reads the
    organization-level index of the row. *)
Theorem rowClient_empty_group {ElasticClient : Type}
    (rt : @Runtime ElasticClient) (p : provider) (addon : string)
    (logInstance : LogInstance.t) (d : LogDeployment.t) (c : ESClient) :
  addon ≠ "" →
  (GetByLogKey p addon).1 = Some logInstance →
  (GetListByClusterAndProjectIdAndWorkspace p
     (LogInstance.ClusterName logInstance)
     (LogInstance.ProjectId logInstance)
     (LogInstance.Workspace logInstance)).1 = [] →
  (rowClient rt p addon d).1 = Some c →
  Indices c = [orgIndex d].
Proof.
  intros Hne Hfound Hlist Hc. eapply rowClient_Indices; [done |].
  rewrite rowAddons_eq_ref by done. unfold siblingGroup_ref.
  by rewrite Hfound, Hlist.
Qed.

Lemma rowClient_empty_group_witness :
  (rowClient Sample.rt Outage.p "k1" Sample.service).1
  = Some {| Client := "http://es1:9200"; URLs := "http://es1:9200,http://es2:9200";
            LogVersion := "2.0.0"; Indices := ["rlogs-7"] |}
  ∧ Indices {| Client := "http://es1:9200"; URLs := "http://es1:9200,http://es2:9200";
               LogVersion := "2.0.0"; Indices := ["rlogs-7"] |}
    = [orgIndex Sample.service].
Proof.
  split; [reflexivity |].
  refine (rowClient_empty_group Sample.rt Outage.p "k1"
            (LogInstance.Build "k1" "c1" "p1" "DEV") Sample.service
            {| Client := "http://es1:9200"; URLs := "http://es1:9200,http://es2:9200";
               LogVersion := "2.0.0"; Indices := ["rlogs-7"] |}
            _ eq_refl eq_refl eq_refl).
  discriminate.
Defined.

(** X8. For a non-empty addon whose instance is found, the addon keys
    of a row hold no key twice, hold exactly the keys of the instances
    listed for the group, and keep the order of the listing. *)
Theorem rowAddons_keys {ElasticClient : Type} (p : @provider ElasticClient)
    (addon : string) (logInstance : LogInstance.t) :
  addon ≠ "" →
  (GetByLogKey p addon).1 = Some logInstance →
  NoDup (rowAddons p addon).1
  ∧ (∀ k, k ∈ (rowAddons p addon).1
          ↔ ∃ i, i ∈ (GetListByClusterAndProjectIdAndWorkspace p
                        (LogInstance.ClusterName logInstance)
                        (LogInstance.ProjectId logInstance)
                        (LogInstance.Workspace logInstance)).1
                 ∧ LogInstance.LogKey i = k)
  ∧ (rowAddons p addon).1
    `sublist_of` (LogInstance.LogKey <$>
                    (GetListByClusterAndProjectIdAndWorkspace p
                       (LogInstance.ClusterName logInstance)
                       (LogInstance.ProjectId logInstance)
                       (LogInstance.Workspace logInstance)).1).
Proof.
  intros Hne Hfound. rewrite rowAddons_eq_ref by done.
  unfold siblingGroup_ref. rewrite Hfound.
  split; [apply keepFirst_NoDup |]. split; [| apply keepFirst_sublist].
  intros k. rewrite keepFirst_elem_of, list_elem_of_fmap.
  split; intros (i & H1 & H2); exists i; by split.
Qed.

Lemma rowAddons_keys_witness :
  NoDup (rowAddons (Sample.p false) "k2").1.
Proof.
  refine (proj1 (rowAddons_keys (Sample.p false) "k2"
                   (LogInstance.Build "k2" "c1" "p1" "DEV") _ eq_refl)).
  discriminate.
Defined.

(** X9. With addon keys given, [getLogIndices] names twice as many
    indices as there are keys, exactly the exact and the wildcard name
    of every key, and the organization scope plays no part in them. *)
Theorem getLogIndices_addons (prefix orgId : string) (addons : list string) :
  addons ≠ [] →
  length (getLogIndices prefix orgId addons) = 2 * length addons
  ∧ (∀ i, i ∈ getLogIndices prefix orgId addons
          ↔ ∃ k, k ∈ addons ∧ (i = prefix +:+ k ∨ i = (prefix +:+ k) +:+ "-*"))
  ∧ ∀ orgId', getLogIndices prefix orgId' addons = getLogIndices prefix orgId addons.
Proof.
  intros Hne.
  assert (∀ o, getLogIndices prefix o addons
               = addons ≫= fun addon => [prefix +:+ addon; (prefix +:+ addon) +:+ "-*"])
    as Heq.
  { intros o. rewrite getLogIndices_eq_ref. unfold getLogIndices_ref.
    by destruct addons. }
  split; [| split].
  - rewrite Heq. clear Hne Heq. induction addons as [|a addons IH]; [done |].
    rewrite bind_cons, length_app, IH. simpl. lia.
  - intros i. rewrite Heq, list_elem_of_bind.
    split.
    + intros (k & Hi & Hk). exists k. split; [done |].
      apply elem_of_cons in Hi as [-> | Hi]; [by left |].
      apply list_elem_of_singleton in Hi as ->. by right.
    + intros (k & Hk & [-> | ->]); exists k; split; try done.
      * apply list_elem_of_here.
      * apply list_elem_of_further, list_elem_of_here.
  - intros o. by rewrite !Heq.
Qed.

Lemma getLogIndices_addons_witness :
  length (getLogIndices "rlogs-" "7" ["k1"; "k2"; "k1"]) = 6.
Proof.
  refine (proj1 (getLogIndices_addons "rlogs-" "7" ["k1"; "k2"; "k1"] _)).
  discriminate.
Defined.

(** *** Client options of a row *)

(** X10. The options of a row always start with its URLs, split at the
    commas, and with sniffing and health checks switched off.
    Credentials are attached exactly when the security settings of the
    row decode, enable security and name a user or a password; the
    cluster dialer is attached exactly for cluster type 1. *)
Theorem rowOptions_shape {ElasticClient : Type} (rt : @Runtime ElasticClient)
    (d : LogDeployment.t) :
  (∃ rest,
      rowOptions rt d
      = [ SetURL (strings.Split (LogDeployment.ESURL d) ",");
          SetSniff false; SetHealthcheck false ] ++ rest)
  ∧ (∀ u pw,
       SetBasicAuth u pw ∈ rowOptions rt d
       ↔ LogDeployment.ESConfig d ≠ ""
         ∧ ∃ cfg, json_Unmarshal rt (LogDeployment.ESConfig d) = Some cfg
                  ∧ Security cfg = true
                  ∧ (Username cfg ≠ "" ∨ Password cfg ≠ "")
                  ∧ u = Username cfg ∧ pw = Password cfg)
  ∧ (∀ h,
       SetHttpClient h ∈ rowOptions rt d
       ↔ LogDeployment.ClusterType d = 1%Z
         ∧ h = newHTTPClient (LogDeployment.ClusterName d)).
Proof.
  set (base := [ SetURL (strings.Split (LogDeployment.ESURL d) ",");
                 SetSniff false; SetHealthcheck false ]).
  set (auth :=
         if bool_decide (0 < String.length (LogDeployment.ESConfig d)) then
           match json_Unmarshal rt (LogDeployment.ESConfig d) with
           | Some cfg =>
               if Security cfg
                  && (bool_decide (Username cfg ≠ "") || bool_decide (Password cfg ≠ ""))
               then [SetBasicAuth (Username cfg) (Password cfg)]
               else []
           | None => []
           end
         else []).
  set (dial := if bool_decide (LogDeployment.ClusterType d = 1%Z)
               then [SetHttpClient (newHTTPClient (LogDeployment.ClusterName d))]
               else []).
  assert (rowOptions rt d = base ++ auth ++ dial) as ->.
  { unfold rowOptions, auth, dial, base.
    destruct (bool_decide (LogDeployment.ClusterType d = 1%Z));
      destruct (bool_decide (0 < String.length (LogDeployment.ESConfig d)));
      try destruct (json_Unmarshal rt (LogDeployment.ESConfig d)) as [cfg|];
      try destruct (Security cfg && _); reflexivity. }
  split; [by eexists |]. split.
  - intros u pw. rewrite !elem_of_app.
    split.
    + intros [Hin | [Hin | Hin]].
      * unfold base in Hin. repeat (apply elem_of_cons in Hin as [Hin | Hin]; [done |]).
        by apply not_elem_of_nil in Hin.
      * unfold auth in Hin. case_bool_decide as Hlen; [| by apply not_elem_of_nil in Hin].
        destruct (json_Unmarshal rt (LogDeployment.ESConfig d)) as [cfg|];
          [| by apply not_elem_of_nil in Hin].
        destruct (Security cfg && _) eqn:Hsec; [| by apply not_elem_of_nil in Hin].
        apply list_elem_of_singleton in Hin. injection Hin as -> ->.
        apply andb_true_iff in Hsec as [Hs Hup].
        apply orb_true_iff in Hup.
        split; [by apply len_pos |]. exists cfg. repeat split; try done.
        destruct Hup as [Hu%bool_decide_eq_true | Hp%bool_decide_eq_true]; [by left | by right].
      * unfold dial in Hin. case_bool_decide; [| by apply not_elem_of_nil in Hin].
        by apply list_elem_of_singleton in Hin.
    + intros (Hcfg & cfg & Hparse & Hs & Hup & -> & ->).
      right. left. unfold auth.
      rewrite bool_decide_eq_true_2 by (by apply len_pos).
      rewrite Hparse, Hs. simpl.
      assert (bool_decide (Username cfg ≠ "") || bool_decide (Password cfg ≠ "") = true)
        as ->.
      { apply orb_true_iff.
        destruct Hup; [left | right]; by apply bool_decide_eq_true. }
      apply list_elem_of_here.
  - intros h. rewrite !elem_of_app.
    split.
    + intros [Hin | [Hin | Hin]].
      * unfold base in Hin. repeat (apply elem_of_cons in Hin as [Hin | Hin]; [done |]).
        by apply not_elem_of_nil in Hin.
      * unfold auth in Hin. case_bool_decide as Hlen; [| by apply not_elem_of_nil in Hin].
        destruct (json_Unmarshal rt (LogDeployment.ESConfig d)) as [cfg|];
          [| by apply not_elem_of_nil in Hin].
        destruct (Security cfg && _); [| by apply not_elem_of_nil in Hin].
        by apply list_elem_of_singleton in Hin.
      * unfold dial in Hin. case_bool_decide; [| by apply not_elem_of_nil in Hin].
        apply list_elem_of_singleton in Hin. by injection Hin as ->.
    + intros [Ht ->]. right. right. unfold dial.
      rewrite bool_decide_eq_true_2 by done. apply list_elem_of_here.
Qed.

(** *** What a resolved list holds *)

(** A property of every central client and of every client a row
    yields holds of every client [getESClients] returns. *)
Lemma getESClients_Forall {ElasticClient : Type}
    (rt : @Runtime ElasticClient) (p : provider) (P : ESClient → Prop)
    (orgID : Z) (req : LogRequest.t) :
  (∀ indices, Forall P (getCenterESClients p indices)) →
  (∀ addon d c, (rowClient rt p addon d).1 = Some c → P c) →
  Forall P (getESClients rt p orgID req).1.
Proof.
  intros Hcenter Hrow.
  assert (∀ addon names,
            Forall P (getESClientsFromLogAnalyticsByCluster rt p orgID addon names).1)
    as Hby.
  { intros addon names. unfold getESClientsFromLogAnalyticsByCluster.
    destruct (QueryByOrgIDAndClusters p orgID names) as [rows err].
    case_bool_decide; [by constructor |].
    rewrite rangeDeployments_clients. apply Forall_forall.
    intros c (d & _ & Hd)%list_elem_of_omap. by eapply Hrow. }
  assert (Forall P (getESClientsFromLogAnalytics rt p orgID).1) as Hown.
  { unfold getESClientsFromLogAnalytics.
    destruct (ListClusters p "" (uint64 orgID)) as [clusters err].
    case_bool_decide; [by constructor | apply Hby]. }
  unfold getESClients.
  destruct (bool_decide _ || bool_decide _).
  - destruct (bool_decide _ || bool_decide _); [by constructor | apply Hby].
  - repeat case_bool_decide; rewrite ?Logged_bind_fst;
      try case_bool_decide; simpl; rewrite ?Forall_app; auto.
Qed.

(** X11. Every client [getESClients] returns carries the log version
    "1.0.0" or "2.0.0", or no version at all; the clients without
    version are central ones, with URLs "-" or "-b". *)
Theorem getESClients_versions {ElasticClient : Type}
    (rt : @Runtime ElasticClient) (p : provider) (orgID : Z) (req : LogRequest.t) :
  Forall
    (fun c => LogVersion c = "1.0.0" ∨ LogVersion c = "2.0.0"
              ∨ (LogVersion c = "" ∧ (URLs c = "-" ∨ URLs c = "-b")))
    (getESClients rt p orgID req).1.
Proof.
  apply getESClients_Forall.
  - intros indices. unfold getCenterESClients.
    destruct (QueryBackES p).
    + constructor; [right; right; split; [done | by left] |].
      constructor; [right; right; split; [done | by right] | constructor].
    + constructor; [right; right; split; [done | by left] | constructor].
  - intros addon d c (_ & client & _ & ->)%rowClient_Some. simpl.
    destruct (bool_decide _ || bool_decide _); [right; by left | by left].
Qed.

(** *** Rows whose client cannot be built *)

Lemma Logged_bind_snd {A B : Type} (m : Logged A) (k : A -> Logged B) :
  (m ≫= k).2 = m.2 ++ (k m.1).2.
Proof.
  unfold mbind, Logged_bind. destruct m as [a out1]; simpl.
  by destruct (k a).
Qed.

Lemma forRange_logs {ElasticClient : Type}
    (rt : @Runtime ElasticClient) (p : provider) (addon : string)
    (rows : list LogDeployment.t) (acc : list ESClient) :
  (forRange rows
     (fun clients d =>
        new ← rowClient rt p addon d;
        mret (match new with
              | Some c => clients ++ [c]
              | None => clients
              end))
     acc).2
  = rows ≫= fun d => (rowClient rt p addon d).2.
Proof.
  revert acc. induction rows as [|d rows IH]; intros acc; [done |].
  rewrite forRange_cons, Logged_bind_snd, IH, Logged_bind_snd. simpl.
  by rewrite app_nil_r.
Qed.

Lemma rowAddons_no_error {ElasticClient : Type} (p : @provider ElasticClient)
    (addon : string) :
  errorLines (rowAddons p addon).2 = [].
Proof.
  unfold rowAddons. case_bool_decide; [| done].
  destruct (GetByLogKey p addon) as [logInstance err].
  rewrite Logged_bind_snd. unfold errorLines. rewrite filter_app.
  destruct logInstance as [logInstance|].
  - destruct (GetListByClusterAndProjectIdAndWorkspace p _ _ _) as [same err'].
    rewrite Logged_bind_snd, filter_app.
    by destruct err, err'.
  - by destruct err.
Qed.

(** The clients and the ERROR lines of one row add up to one when the
    row has a URL, to none otherwise. *)
Lemma rowClient_account {ElasticClient : Type}
    (rt : @Runtime ElasticClient) (p : provider) (addon : string) (d : LogDeployment.t) :
  length (option_list (rowClient rt p addon d).1)
  + length (errorLines (rowClient rt p addon d).2)
  = length (filter (fun d' => LogDeployment.ESURL d' ≠ "") [d]).
Proof.
  rewrite filter_cons, filter_nil.
  unfold rowClient. case_bool_decide as Hurl.
  - apply len_nonpos in Hurl. by rewrite decide_False by (intros Hne; by apply Hne).
  - rewrite decide_True by (by rewrite <- len_nonpos).
    rewrite Logged_bind_fst, Logged_bind_snd.
    unfold errorLines. rewrite filter_app.
    fold (errorLines (rowAddons p addon).2). rewrite rowAddons_no_error.
    destruct (elastic_NewClient rt (rowOptions rt d)) as [client | err].
    + by destruct (bool_decide _ || bool_decide _).
    + done.
Qed.

(** X12. When the deployment query answers, every row with a connection
    URL is accounted for: it yields a client or one ERROR line, so that
    clients and ERROR lines together number the rows with a URL. *)
Theorem byCluster_accounting {ElasticClient : Type}
    (rt : @Runtime ElasticClient) (p : provider) (orgID : Z) (addon : string)
    (clusterNames : list string) (rows : list LogDeployment.t) :
  QueryByOrgIDAndClusters p orgID clusterNames = (rows, None) →
  length (getESClientsFromLogAnalyticsByCluster rt p orgID addon clusterNames).1
  + length (errorLines
              (getESClientsFromLogAnalyticsByCluster rt p orgID addon clusterNames).2)
  = length (filter (fun d => LogDeployment.ESURL d ≠ "") rows).
Proof.
  intros Hq. unfold getESClientsFromLogAnalyticsByCluster. rewrite Hq.
  rewrite bool_decide_eq_false_2 by (by intros [? ?]).
  rewrite rangeDeployments_clients. unfold rangeDeployments. rewrite forRange_logs.
  clear Hq. induction rows as [|d rows IH]; [done |].
  rewrite omap_cons, bind_cons, filter_cons.
  unfold errorLines in *. rewrite filter_app, length_app.
  pose proof (rowClient_account rt p addon d) as Hd.
  rewrite filter_cons, filter_nil in Hd. unfold errorLines in Hd.
  destruct (rowClient rt p addon d).1 as [c|];
    destruct (decide (LogDeployment.ESURL d ≠ "")); simpl in *; lia.
Qed.

Lemma byCluster_accounting_witness :
  length (getESClientsFromLogAnalyticsByCluster Sample.rt (Sample.p false) 7 "" ["c1"; "c2"]).1
  + length (errorLines
              (getESClientsFromLogAnalyticsByCluster
                 Sample.rt (Sample.p false) 7 "" ["c1"; "c2"]).2)
  = 3.
Proof.
  exact (byCluster_accounting Sample.rt (Sample.p false) 7 "" ["c1"; "c2"]
           Sample.rows eq_refl).
Defined.

(** X13. A row whose client cannot be built is logged and left out: its
    turn appends no client and writes one ERROR line with the reason,
    and the clients of the batch are those of the batch without it. *)
Theorem rangeDeployments_skips_failed_client {ElasticClient : Type}
    (rt : @Runtime ElasticClient) (p : provider) (addon : string)
    (rows1 rows2 : list LogDeployment.t) (d : LogDeployment.t) (err : error) :
  LogDeployment.ESURL d ≠ "" →
  elastic_NewClient rt (rowOptions rt d) = inr err →
  (rowClient rt p addon d).1 = None
  ∧ errorLines (rowClient rt p addon d).2
    = [(ERROR, "failed to create elasticsearch client: " +:+ err)]
  ∧ (rangeDeployments rt p addon (rows1 ++ d :: rows2)).1
    = (rangeDeployments rt p addon (rows1 ++ rows2)).1.
Proof.
  intros Hurl Hnew.
  assert ((rowClient rt p addon d).1 = None) as Hnone.
  { unfold rowClient. rewrite bool_decide_eq_false_2 by (by rewrite len_nonpos).
    by rewrite Logged_bind_fst, Hnew. }
  split; [done |]. split.
  - unfold rowClient. rewrite bool_decide_eq_false_2 by (by rewrite len_nonpos).
    rewrite Logged_bind_snd, Hnew. unfold errorLines. rewrite filter_app.
    fold (errorLines (rowAddons p addon).2). by rewrite rowAddons_no_error.
  - rewrite !rangeDeployments_clients, !omap_app, omap_cons. by rewrite Hnone.
Qed.

Lemma rangeDeployments_skips_failed_client_witness :
  (rangeDeployments Sample.rt (Sample.p false) ""
     ([Sample.service; Sample.legacy] ++ Sample.unreachable :: [])).1
  = (rangeDeployments Sample.rt (Sample.p false) "" ([Sample.service; Sample.legacy] ++ [])).1.
Proof.
  refine (proj2 (proj2
    (rangeDeployments_skips_failed_client Sample.rt (Sample.p false) ""
       [Sample.service; Sample.legacy] [] Sample.unreachable
       "no Elasticsearch node available" _ eq_refl))).
  discriminate.
Defined.

(** *** Diagnostics *)

Lemma append_nil_r (s : string) : s +:+ "" = s.
Proof.
  induction s as [|c s IH]; [done |].
  change (String c (s +:+ "") = String c s). by f_equal.
Qed.

Lemma hasByte_append (c : ascii) (s1 s2 : string) :
  hasByte c (s1 +:+ s2) = hasByte c s1 || hasByte c s2.
Proof.
  induction s1 as [|c1 s1 IH]; [done |].
  change (hasByte c (String c1 (s1 +:+ s2)) = hasByte c (String c1 s1) || hasByte c s2).
  cbn [hasByte]. by rewrite IH, orb_assoc.
Qed.

(** Splitting at a byte: the text up to its first occurrence is the
    first piece. *)
Lemma splitFrom_first (c : ascii) (a b cur : string) :
  hasByte c a = false →
  strings.splitFrom (String c "") (a +:+ String c b) 0 cur
  = (cur +:+ a) :: strings.splitFrom (String c "") b 0 "".
Proof.
  revert cur. induction a as [|x a IH]; intros cur Ha.
  - change ("" +:+ String c b) with (String c b).
    cbn [strings.splitFrom String.prefix].
    rewrite append_nil_r. destruct (ascii_dec c c) as [_ | Hne]; [| done].
    by destruct b.
  - cbn [hasByte] in Ha. apply orb_false_iff in Ha as [Hx Ha].
    apply bool_decide_eq_false in Hx.
    change (String x a +:+ String c b) with (String x (a +:+ String c b)).
    cbn [strings.splitFrom String.prefix].
    destruct (ascii_dec c x) as [-> | _]; [done |].
    rewrite IH by done. by rewrite append_assoc.
Qed.

Lemma Split_first (c : ascii) (a b : string) :
  hasByte c a = false →
  strings.Split (a +:+ String c b) (String c "") = a :: strings.Split b (String c "").
Proof. intros Ha. unfold strings.Split. by rewrite splitFrom_first. Qed.

Lemma hasByte_Join (c : ascii) (elems : list string) (sep : string) :
  hasByte c sep = false →
  Forall (fun e => hasByte c e = false) elems →
  hasByte c (strings.Join elems sep) = false.
Proof.
  intros Hsep Helems. induction Helems as [|e elems He _ IH]; [done |].
  cbn [strings.Join]. destruct elems as [|e' elems]; [done |].
  by rewrite !hasByte_append, He, Hsep, IH.
Qed.

Lemma LF_append (s : string) : LF +:+ s = String "010" s.
Proof. reflexivity. Qed.

(** X14. When the search source renders, [printSearchSource] returns no
    error and prints exactly the text it returns; provided no line feed
    occurs in the URLs and in the index names of the client, the first
    line of that text is the URLs string, the second the index names
    joined by commas, and the rendered source follows.  (When the
    source does not render, the definition returns the empty text with
    the error and prints nothing.) *)
Theorem printSearchSource_lines {ElasticClient SearchSource Source : Type}
    (searchSource_Source : SearchSource -> Source + error)
    (jsonx_MarshalAndIndent : Source -> string)
    (c : @ESClient ElasticClient) (searchSource : SearchSource) (source : Source) :
  searchSource_Source searchSource = inl source →
  hasByte "010" (URLs c) = false →
  Forall (fun i => hasByte "010" i = false) (Indices c) →
  (printSearchSource searchSource_Source jsonx_MarshalAndIndent c searchSource).1.2 = None
  ∧ (printSearchSource searchSource_Source jsonx_MarshalAndIndent c searchSource).2
    = [ (printSearchSource searchSource_Source jsonx_MarshalAndIndent c searchSource).1.1
        +:+ LF ]
  ∧ strings.Split
      (printSearchSource searchSource_Source jsonx_MarshalAndIndent c searchSource).1.1 LF
    = URLs c :: strings.Join (Indices c) ","
        :: strings.Split (jsonx_MarshalAndIndent source) LF.
Proof.
  intros Hsrc Hurls Hindices. unfold printSearchSource. rewrite Hsrc.
  cbn [fst snd]. split; [done |]. split; [done |].
  rewrite !append_assoc, !LF_append.
  rewrite (Split_first "010") by done.
  by rewrite (Split_first "010") by (by apply hasByte_Join).
Qed.

Lemma printSearchSource_lines_witness :
  strings.Split
    (printSearchSource (fun q : string => inl q) (fun q : string => q)
       {| Client := "central"; URLs := "-"; LogVersion := "";
          Indices := ["sls-*"; "rlogs-*"] |}
       "{}").1.1 LF
  = ["-"; "sls-*,rlogs-*"; "{}"].
Proof.
  refine (proj2 (proj2
    (printSearchSource_lines (fun q : string => inl q) (fun q : string => q)
       {| Client := "central"; URLs := "-"; LogVersion := "";
          Indices := ["sls-*"; "rlogs-*"] |}
       "{}" "{}" eq_refl eq_refl _))).
  repeat constructor.
Defined.

(** ** The edas container list endpoint *)

Lemma decimalFrom_ge (s : string) (acc : Z) :
  edas.allDigits s = true → (0 ≤ acc)%Z → (acc ≤ edas.decimalFrom acc s)%Z.
Proof.
  revert acc. induction s as [|c s IH]; intros acc Hd Hacc; simpl in *; [lia |].
  apply andb_true_iff in Hd as [Hc Hs]. apply andb_true_iff in Hc as [Hlo Hhi].
  apply Z.leb_le in Hlo, Hhi.
  specialize (IH (acc * 10 + (Z.of_N (N_of_ascii c) - 48))%Z Hs). lia.
Qed.

(** The loop of [ParseUint] succeeds exactly on the decimal numerals
    that fit 64 bits, with their value. *)
Lemma parseLoop_spec (s : string) (n : Z) :
  (0 ≤ n ≤ strconv.maxUint64)%Z →
  match strconv.parseLoop s n with
  | inl m => edas.allDigits s = true
             ∧ (edas.decimalFrom n s < 2 ^ 64)%Z ∧ m = edas.decimalFrom n s
  | inr _ => ¬ (edas.allDigits s = true ∧ (edas.decimalFrom n s < 2 ^ 64)%Z)
  end.
Proof.
  change (2 ^ 64)%Z with 18446744073709551616%Z.
  revert n. induction s as [|c s IH]; intros n Hn.
  - unfold strconv.maxUint64 in Hn. simpl. repeat split; lia.
  - cbn [strconv.parseLoop edas.allDigits edas.decimalFrom].
    change (2 ^ 64)%Z with 18446744073709551616%Z.
    change strconv.cutoff with 1844674407370955162%Z.
    unfold strconv.maxUint64 in *.
    set (code := Z.of_N (N_of_ascii c)) in *.
    destruct ((48 <=? code)%Z && (code <=? 57)%Z) eqn:Hdigit;
      [| by intros [? _]].
    apply andb_true_iff in Hdigit as [Hlo Hhi]. apply Z.leb_le in Hlo, Hhi.
    cbn [andb].
    destruct (1844674407370955162 <=? n)%Z eqn:Hcut.
    { apply Z.leb_le in Hcut. intros [Hd Hlt].
      pose proof (decimalFrom_ge s (n * 10 + (code - 48))%Z Hd). lia. }
    apply Z.leb_gt in Hcut.
    rewrite (Z.mod_small (n * 10)) by lia.
    destruct (decide (n * 10 + (code - 48) < 18446744073709551616)%Z) as [Hfit | Hover].
    + rewrite (Z.mod_small (n * 10 + (code - 48))) by lia.
      rewrite (proj2 (Z.ltb_ge _ _)) by lia.
      rewrite (proj2 (Z.ltb_ge _ _)) by lia.
      cbn [orb]. apply IH. lia.
    + assert (((n * 10 + (code - 48)) mod 18446744073709551616
               = n * 10 + (code - 48) - 18446744073709551616)%Z) as ->.
      { symmetry. apply (Z.mod_unique_pos _ _ 1); lia. }
      rewrite (proj2 (Z.ltb_lt _ _)) by lia. cbn [orb].
      intros [Hd Hlt].
      pose proof (decimalFrom_ge s (n * 10 + (code - 48))%Z Hd). lia.
Qed.

Lemma ParseUint_spec (s : string) (id : Z) :
  strconv.ParseUint s = (id, None)
  ↔ s ≠ "" ∧ edas.allDigits s = true ∧ (edas.decimal s < 2 ^ 64)%Z ∧ id = edas.decimal s.
Proof.
  unfold strconv.ParseUint, edas.decimal.
  destruct s as [|c s]; [split; [done | by intros [? _]] |].
  pose proof (parseLoop_spec (String c s) 0) as Hloop.
  destruct (strconv.parseLoop (String c s) 0) as [m | cause].
  - destruct Hloop as (Hd & Hlt & ->); [by unfold strconv.maxUint64 |].
    split; [by intros [= <-] | by intros (_ & _ & _ & ->)].
  - split; [by destruct cause |].
    intros (_ & Hd & Hlt & _). exfalso. apply Hloop; [by unfold strconv.maxUint64 | done].
Qed.

Lemma ParseUint_error (s : string) (id : Z) (err : strconv.NumError) :
  strconv.ParseUint s = (id, Some err) →
  strconv.Func err = "ParseUint" ∧ strconv.Num err = s.
Proof.
  unfold strconv.ParseUint. destruct s as [|c s]; [by intros [= <- <-] |].
  destruct (strconv.parseLoop (String c s) 0) as [m | [|]]; [done | |];
    by intros [= <- <-].
Qed.

Lemma idParam_reads (str : string) (id : Z) :
  edas.idParam str = inl id ↔ edas.reads str id.
Proof.
  unfold edas.idParam, edas.reads. case_bool_decide as Hstr.
  - destruct (strconv.ParseUint str) as [n [err|]] eqn:Hparse.
    + split; [done |]. intros [[? _] | Hrest]; [done |].
      apply ParseUint_spec in Hrest. congruence.
    + apply ParseUint_spec in Hparse as (_ & Hd & Hlt & ->).
      split; [intros [= <-]; right; by repeat split |].
      by intros [[? _] | (_ & _ & _ & ->)].
  - subst str.
    split; [intros [= <-]; by left | by intros [[_ ->] | [? _]]].
Qed.

Lemma idParam_error (str : string) (err : strconv.NumError) :
  edas.idParam str = inr err →
  strconv.Func err = "ParseUint" ∧ strconv.Num err = str ∧ str ≠ ""
  ∧ ¬ ∃ id, edas.reads str id.
Proof.
  intros Herr. assert (¬ ∃ id, edas.reads str id) as Hno.
  { intros [id Hid%idParam_reads]. congruence. }
  unfold edas.idParam in Herr. case_bool_decide as Hstr; [| done].
  destruct (strconv.ParseUint str) as [n [e|]] eqn:Hparse; [| done].
  injection Herr as ->. apply ParseUint_error in Hparse as [? ?]. by repeat split.
Qed.

(** X15. [getListEdasContainerParams] returns a request exactly when
    each of the parameters projectId, appId and runtimeId is empty or
    absent (the field is zero) or a decimal numeral below 2^64 (the
    field is its value); workspace and service are the first values of
    their keys, and edasAppId keeps all its values in order. *)
Theorem getListEdasContainerParams_ok (query : gmap string (list string))
    (req : edas.EdasContainerListRequest) :
  edas.getListEdasContainerParams query = inl req
  ↔ edas.reads (url.Get query "projectId") (edas.ProjectID req)
    ∧ edas.reads (url.Get query "appId") (edas.AppID req)
    ∧ edas.reads (url.Get query "runtimeId") (edas.RuntimeID req)
    ∧ edas.Workspace req = url.Get query "workspace"
    ∧ edas.Service req = url.Get query "service"
    ∧ edas.EdasAppIDs req = url.values query "edasAppId".
Proof.
  unfold edas.getListEdasContainerParams. rewrite <- !idParam_reads.
  destruct (edas.idParam (url.Get query "projectId")) as [pid | e1];
    [| split; [done | by intros [? _]]].
  destruct (edas.idParam (url.Get query "appId")) as [aid | e2];
    [| split; [done | by intros (_ & ? & _)]].
  destruct (edas.idParam (url.Get query "runtimeId")) as [rid | e3];
    [| split; [done | by intros (_ & _ & ? & _)]].
  split.
  - by intros [= <-].
  - destruct req as [p a r w sv ids]. simpl.
    by intros ([= ->] & [= ->] & [= ->] & -> & -> & ->).
Qed.

(** X16. The ids of a request [getListEdasContainerParams] returns are
    64-bit unsigned: at least zero and below 2^64. *)
Theorem getListEdasContainerParams_range (query : gmap string (list string))
    (req : edas.EdasContainerListRequest) :
  edas.getListEdasContainerParams query = inl req →
  (0 ≤ edas.ProjectID req < 2 ^ 64)%Z
  ∧ (0 ≤ edas.AppID req < 2 ^ 64)%Z
  ∧ (0 ≤ edas.RuntimeID req < 2 ^ 64)%Z.
Proof.
  assert (∀ str id, edas.reads str id → (0 ≤ id < 2 ^ 64)%Z) as Hrange.
  { intros str id [[_ ->] | (_ & Hd & Hlt & ->)]; [done |].
    split; [| done]. by apply (decimalFrom_ge str 0). }
  intros (Hp & Ha & Hr & _)%getListEdasContainerParams_ok.
  split; [| split]; by eapply Hrange.
Qed.

Lemma getListEdasContainerParams_range_witness :
  edas.getListEdasContainerParams
    {[ "projectId" := ["18446744073709551615"; "7"]; "appId" := [""];
       "edasAppId" := ["a"; "b"] ]}
  = inl {| edas.ProjectID := 18446744073709551615; edas.AppID := 0;
           edas.RuntimeID := 0; edas.Workspace := ""; edas.Service := "";
           edas.EdasAppIDs := ["a"; "b"] |}
  ∧ (0 ≤ 18446744073709551615 < 2 ^ 64)%Z.
Proof.
  split; [vm_compute; reflexivity |].
  refine (proj1 (getListEdasContainerParams_range
                   {[ "projectId" := ["18446744073709551615"; "7"]; "appId" := [""];
                      "edasAppId" := ["a"; "b"] ]}
                   {| edas.ProjectID := 18446744073709551615; edas.AppID := 0;
                      edas.RuntimeID := 0; edas.Workspace := ""; edas.Service := "";
                      edas.EdasAppIDs := ["a"; "b"] |}
                   _)).
  vm_compute. reflexivity.
Defined.

(** X17. When [getListEdasContainerParams] fails, the error is the
    [ParseUint] error of the first parameter, in the order projectId,
    appId, runtimeId, that is non-empty and is no decimal numeral below
    2^64; the error quotes that value. *)
Theorem getListEdasContainerParams_error (query : gmap string (list string))
    (err : strconv.NumError) :
  edas.getListEdasContainerParams query = inr err →
  strconv.Func err = "ParseUint"
  ∧ strconv.Num err ≠ ""
  ∧ (¬ ∃ id, edas.reads (strconv.Num err) id)
  ∧ (strconv.Num err = url.Get query "projectId"
     ∨ ((∃ id, edas.reads (url.Get query "projectId") id)
        ∧ strconv.Num err = url.Get query "appId")
     ∨ ((∃ id, edas.reads (url.Get query "projectId") id)
        ∧ (∃ id, edas.reads (url.Get query "appId") id)
        ∧ strconv.Num err = url.Get query "runtimeId")).
Proof.
  unfold edas.getListEdasContainerParams.
  destruct (edas.idParam (url.Get query "projectId")) as [pid | e1] eqn:H1.
  - apply idParam_reads in H1.
    destruct (edas.idParam (url.Get query "appId")) as [aid | e2] eqn:H2.
    + apply idParam_reads in H2.
      destruct (edas.idParam (url.Get query "runtimeId")) as [rid | e3] eqn:H3; [done |].
      intros [= <-]. apply idParam_error in H3 as (Hf & Hn & Hne & Hno).
      rewrite Hn. repeat split; [done | done | done |].
      right. right. eauto.
    + intros [= <-]. apply idParam_error in H2 as (Hf & Hn & Hne & Hno).
      rewrite Hn. repeat split; [done | done | done |].
      right. left. eauto.
  - intros [= <-]. apply idParam_error in H1 as (Hf & Hn & Hne & Hno).
    rewrite Hn. repeat split; [done | done | done |]. by left.
Qed.

Lemma getListEdasContainerParams_error_witness :
  edas.getListEdasContainerParams
    {[ "projectId" := ["12"]; "appId" := ["-1"]; "runtimeId" := ["x"] ]}
  = inr {| strconv.Func := "ParseUint"; strconv.Num := "-1";
           strconv.Err := strconv.ErrSyntax |}
  ∧ strconv.Num {| strconv.Func := "ParseUint"; strconv.Num := "-1";
                   strconv.Err := strconv.ErrSyntax |} ≠ "".
Proof.
  split; [vm_compute; reflexivity |].
  refine (proj1 (proj2
    (getListEdasContainerParams_error
       {[ "projectId" := ["12"]; "appId" := ["-1"]; "runtimeId" := ["x"] ]}
       {| strconv.Func := "ParseUint"; strconv.Num := "-1";
          strconv.Err := strconv.ErrSyntax |}
       _))).
  vm_compute. reflexivity.
Defined.


(** ** The local volume provisioner *)

Section ProvisionerFacts.

Import localvolume.

Context {Quantity : Type} (env : @Env Quantity).

Lemma hostpath_Some (options : @ProvisionOptions Quantity) :
  hostpath options ≠ "" → is_Some (Parameters options).
Proof. unfold hostpath. by destruct (Parameters options). Qed.

Lemma find_explicit (options : @ProvisionOptions Quantity) (w : World) :
  hostpath options ≠ "" →
  findLocalVolumeMountedPath env options w
  = ((JoinPath env ["/hostfs"; hostpath options], None), w).
Proof.
  intros Hhp. unfold findLocalVolumeMountedPath.
  rewrite (bool_decide_eq_true_2 _ (hostpath_Some options Hhp)).
  by rewrite bool_decide_eq_true_2 by done.
Qed.

Lemma find_cached (options : @ProvisionOptions Quantity) (w : World) :
  hostpath options = "" →
  hostPathOnce (host w) = true →
  findLocalVolumeMountedPath env options w
  = ((hostPathVolumePrefixInContainer (host w), hostPathErr (host w)), w).
Proof.
  intros Hhp Honce. unfold findLocalVolumeMountedPath.
  rewrite (bool_decide_eq_false_2 (hostpath options ≠ "")) by (intros H; by apply H).
  by rewrite andb_false_r, Honce.
Qed.

Lemma find_fresh (options : @ProvisionOptions Quantity) (w : World) :
  hostpath options = "" →
  hostPathOnce (host w) = false →
  findLocalVolumeMountedPath env options w
  = ((hostPathVolumePrefixInContainer (host (discover env w)),
      hostPathErr (host (discover env w))), discover env w).
Proof.
  intros Hhp Honce. unfold findLocalVolumeMountedPath.
  rewrite (bool_decide_eq_false_2 (hostpath options ≠ "")) by (intros H; by apply H).
  by rewrite andb_false_r, Honce.
Qed.

Lemma discover_once (w : World) : hostPathOnce (host (discover env w)) = true.
Proof. unfold discover. by destruct (DiscoverMountPoint env (trace w)). Qed.

Lemma discover_trace (w : World) : trace (discover env w) = trace w ++ [Discover].
Proof. unfold discover. by destruct (DiscoverMountPoint env (trace w)). Qed.

Lemma onceInv_log (e : Event) (w : World) :
  e ≠ Discover → onceInv w → onceInv (log e w).
Proof.
  intros He Hw. unfold onceInv, log, discoveries in *. simpl.
  rewrite filter_app, filter_cons, decide_False by done.
  by rewrite filter_nil, app_nil_r.
Qed.

Lemma onceInv_find (options : @ProvisionOptions Quantity) (w : World) :
  onceInv w → onceInv (findLocalVolumeMountedPath env options w).2.
Proof.
  intros Hw. destruct (decide (hostpath options = "")) as [Hhp | Hhp].
  - destruct (hostPathOnce (host w)) eqn:Honce.
    + by rewrite find_cached.
    + rewrite find_fresh by done. unfold onceInv in *. simpl.
      rewrite discover_once, discover_trace. rewrite Honce in Hw.
      unfold discoveries in *. rewrite filter_app, length_app. simpl. lia.
  - by rewrite find_explicit.
Qed.

Lemma onceInv_Provision (options : @ProvisionOptions Quantity) (w : World) :
  onceInv w → onceInv (Provision env options w).2.
Proof.
  intros Hw. unfold Provision.
  set (w0 := log _ w).
  assert (onceInv w0) as H0 by (by apply onceInv_log).
  destruct (SelectedNode options) as [nodeName|]; [| by apply onceInv_log].
  unfold volumeRealPath, volumePath.
  pose proof (onceInv_find options w0 H0) as H1.
  destruct (findLocalVolumeMountedPath env options w0) as [[mount1 err1] w1].
  destruct err1 as [e1|]; [done |].
  pose proof (onceInv_find options w1 H1) as H2.
  destruct (findLocalVolumeMountedPath env options w1) as [[mount2 err2] w2].
  destruct err2 as [e2|]; [done |].
  destruct (cmdExecutor_OnNodesPods env _ _ _ _); by apply onceInv_log.
Qed.

End ProvisionerFacts.

(** X19. However many volumes are requested, and whatever the requests
    are, the mount point is discovered at most once. *)
Theorem serve_discovers_once {Quantity : Type} (env : @localvolume.Env Quantity)
    (requests : list (@localvolume.ProvisionOptions Quantity)) :
  length (localvolume.discoveries
            (localvolume.trace (localvolume.serve env requests localvolume.start))) ≤ 1.
Proof.
  assert (∀ w, localvolume.onceInv w → localvolume.onceInv (localvolume.serve env requests w))
    as Hserve.
  { induction requests as [|options rest IH]; intros w Hw; [done |].
    apply IH. by apply onceInv_Provision. }
  assert (localvolume.onceInv localvolume.start) as Hstart.
  { unfold localvolume.onceInv. simpl. lia. }
  apply Hserve in Hstart. unfold localvolume.onceInv in Hstart.
  destruct (localvolume.hostPathOnce _); lia.
Qed.

Section ProvisionFacts.

Import localvolume.

Context {Quantity : Type} (env : @Env Quantity).

(** Looking the mount path up again gives the same answer and changes
    nothing. *)
Lemma find_twice (options : @ProvisionOptions Quantity) (w : World) :
  findLocalVolumeMountedPath env options (findLocalVolumeMountedPath env options w).2
  = ((findLocalVolumeMountedPath env options w).1,
     (findLocalVolumeMountedPath env options w).2).
Proof.
  destruct (decide (hostpath options = "")) as [Hhp | Hhp].
  - destruct (hostPathOnce (host w)) eqn:Honce.
    + rewrite (find_cached env options w) by done. simpl. by rewrite find_cached.
    + rewrite (find_fresh env options w) by done. simpl.
      by rewrite find_cached by (done || apply discover_once).
  - by rewrite !find_explicit.
Qed.

(** [Provision] for a selected node, with the two lookups of the mount
    path taken as one. *)
Lemma Provision_eq (options : @ProvisionOptions Quantity) (w : World) (nodeName : string) :
  SelectedNode options = Some nodeName →
  Provision env options w
  = let w0 := log (Infof ("Start provisioning local volume: options: "
                          +:+ showOptions env options)) w in
    let '((mountPath, err), w1) := findLocalVolumeMountedPath env options w0 in
    match err with
    | Some e => ((None, ProvisioningFinished, Some e), w1)
    | None =>
        let cmd := "mkdir -p " +:+ JoinPath env [mountPath; "localvolume"; PVName options] in
        let nodeSelector := "kubernetes.io/hostname=" +:+ nodeName in
        (match cmdExecutor_OnNodesPods env (trace w1) cmd nodeSelector
                 "app=volume-provisioner" with
         | Some e => (None, ProvisioningFinished, Some e)
         | None =>
             (Some {| Name := PVName options;
                      PersistentVolumeReclaimPolicy := "Delete";
                      PVAccessModes := AccessModes options;
                      Capacity :=
                        {[ "storage" :=
                             default (zeroQuantity env) (Requests options !! "storage") ]};
                      LocalPath :=
                        JoinPath env ["/"; TrimPrefixes env mountPath ["/hostfs"];
                                      "localvolume"; PVName options];
                      NodeSelectorTerms :=
                        [ [ {| Key := "kubernetes.io/hostname";
                               Operator := "In";
                               Values := [nodeName] |} ] ] |},
              ProvisioningFinished, None)
         end,
         log (OnNodesPods cmd nodeSelector "app=volume-provisioner") w1)
    end.
Proof.
  intros Hnode. unfold Provision. rewrite Hnode.
  unfold volumeRealPath, volumePath. cbv zeta.
  set (w0 := log _ w).
  pose proof (find_twice options w0) as Htwice.
  destruct (findLocalVolumeMountedPath env options w0) as [[mount err] w1].
  simpl in Htwice. destruct err as [e|]; [done |].
  rewrite Htwice.
  by destruct (cmdExecutor_OnNodesPods env _ _ _ _).
Qed.

Lemma commands_log (e : Event) (w : World) :
  commands (trace (log e w))
  = commands (trace w) ++ (if isCommand e then [e] else []).
Proof.
  unfold commands, log. simpl. rewrite filter_app, filter_cons, filter_nil.
  by destruct (isCommand e).
Qed.

Lemma discoveries_log (e : Event) (w : World) :
  e ≠ Discover → discoveries (trace (log e w)) = discoveries (trace w).
Proof.
  intros He. unfold discoveries, log. simpl.
  rewrite filter_app, filter_cons, decide_False by done.
  by rewrite filter_nil, app_nil_r.
Qed.

Lemma commands_find (options : @ProvisionOptions Quantity) (w : World) :
  commands (trace (findLocalVolumeMountedPath env options w).2) = commands (trace w).
Proof.
  destruct (decide (hostpath options = "")) as [Hhp | Hhp].
  - destruct (hostPathOnce (host w)) eqn:Honce.
    + by rewrite find_cached.
    + rewrite find_fresh by done. simpl. rewrite discover_trace.
      unfold commands. by rewrite filter_app, app_nil_r.
  - by rewrite find_explicit.
Qed.

End ProvisionFacts.



(** X21. When [Provision] returns a volume it returns no error; the
    volume bears the requested name, lies under the mount path on the
    host, and is bound to the selected node; the directory of the
    volume under the same mount path has just been made by one command
    on the pods of that node.  The mount path is the one of the
    hostpath parameter when there is one, else the discovered one. *)
Theorem Provision_volume {Quantity : Type} (env : @localvolume.Env Quantity)
    (options : @localvolume.ProvisionOptions Quantity) (w : localvolume.World)
    (pv : localvolume.PersistentVolume) :
  (localvolume.Provision env options w).1.1.1 = Some pv →
  ∃ node mount,
    localvolume.SelectedNode options = Some node
    ∧ (localvolume.Provision env options w).1
      = (Some pv, localvolume.ProvisioningFinished, None)
    ∧ localvolume.Name pv = localvolume.PVName options
    ∧ localvolume.LocalPath pv
      = localvolume.JoinPath env
          ["/"; localvolume.TrimPrefixes env mount ["/hostfs"]; "localvolume";
           localvolume.PVName options]
    ∧ localvolume.NodeSelectorTerms pv
      = [ [ {| localvolume.Key := "kubernetes.io/hostname";
               localvolume.Operator := "In";
               localvolume.Values := [node] |} ] ]
    ∧ localvolume.commands (localvolume.trace (localvolume.Provision env options w).2)
      = localvolume.commands (localvolume.trace w)
        ++ [ localvolume.OnNodesPods
               ("mkdir -p "
                +:+ localvolume.JoinPath env
                      [mount; "localvolume"; localvolume.PVName options])
               ("kubernetes.io/hostname=" +:+ node) "app=volume-provisioner" ]
    ∧ (localvolume.hostpath options ≠ "" →
         mount = localvolume.JoinPath env ["/hostfs"; localvolume.hostpath options])
    ∧ (localvolume.hostpath options = "" →
         mount = localvolume.hostPathVolumePrefixInContainer
                   (localvolume.host (localvolume.Provision env options w).2)
         ∧ localvolume.hostPathErr
             (localvolume.host (localvolume.Provision env options w).2) = None).
Proof.
  destruct (localvolume.SelectedNode options) as [node|] eqn:Hnode;
    [| unfold localvolume.Provision; by rewrite Hnode].
  rewrite (Provision_eq env options w node Hnode). cbv zeta.
  set (w0 := localvolume.log _ w).
  assert (localvolume.commands (localvolume.trace w0)
          = localvolume.commands (localvolume.trace w)) as Hc0.
  { unfold w0. by rewrite commands_log, app_nil_r. }
  pose proof (commands_find env options w0) as Hc1.
  assert ((localvolume.hostpath options ≠ "" →
           (localvolume.findLocalVolumeMountedPath env options w0).1.1
           = localvolume.JoinPath env ["/hostfs"; localvolume.hostpath options])
          ∧ (localvolume.hostpath options = "" →
             (localvolume.findLocalVolumeMountedPath env options w0).1.1
             = localvolume.hostPathVolumePrefixInContainer
                 (localvolume.host (localvolume.findLocalVolumeMountedPath env options w0).2)
             ∧ (localvolume.findLocalVolumeMountedPath env options w0).1.2
               = localvolume.hostPathErr
                   (localvolume.host
                      (localvolume.findLocalVolumeMountedPath env options w0).2)))
    as [Hexp Hdisc].
  { split; intros Hhp.
    - by rewrite find_explicit.
    - destruct (localvolume.hostPathOnce (localvolume.host w0)) eqn:Honce.
      + by rewrite find_cached.
      + by rewrite find_fresh. }
  destruct (localvolume.findLocalVolumeMountedPath env options w0) as [[mount err] w1].
  cbn [fst snd] in Hc1, Hexp, Hdisc. destruct err as [e|]; [done |].
  destruct (localvolume.cmdExecutor_OnNodesPods env _ _ _ _) as [e|]; [done |].
  cbn [fst snd]. intros [= <-]. exists node, mount.
  repeat split; try done.
  - by rewrite commands_log, Hc1, Hc0.
  - by apply Hdisc.
  - symmetry. by apply Hdisc.
Qed.

Lemma Provision_volume_witness :
  (localvolume.Provision VolumeSample.healthy (VolumeSample.request "pv-1" None)
     localvolume.start).1
  = (Some {| localvolume.Name := "pv-1";
             localvolume.PersistentVolumeReclaimPolicy := "Delete";
             localvolume.PVAccessModes := ["ReadWriteOnce"];
             localvolume.Capacity := {[ "storage" := 1024%Z ]};
             localvolume.LocalPath := "/data/localvolume/pv-1";
             localvolume.NodeSelectorTerms :=
               [ [ {| localvolume.Key := "kubernetes.io/hostname";
                      localvolume.Operator := "In";
                      localvolume.Values := ["node-1"] |} ] ] |},
     localvolume.ProvisioningFinished, None).
Proof.
  destruct (Provision_volume VolumeSample.healthy (VolumeSample.request "pv-1" None)
              localvolume.start
              {| localvolume.Name := "pv-1";
                 localvolume.PersistentVolumeReclaimPolicy := "Delete";
                 localvolume.PVAccessModes := ["ReadWriteOnce"];
                 localvolume.Capacity := {[ "storage" := 1024%Z ]};
                 localvolume.LocalPath := "/data/localvolume/pv-1";
                 localvolume.NodeSelectorTerms :=
                   [ [ {| localvolume.Key := "kubernetes.io/hostname";
                          localvolume.Operator := "In";
                          localvolume.Values := ["node-1"] |} ] ] |})
    as (node & mount & _ & Hresult & _).
  - vm_compute. reflexivity.
  - exact Hresult.
Defined.

(** X22. [Provision] always reports [ProvisioningFinished], returns a
    volume exactly when it returns no error, and runs at most one
    command.  Without selected node it fails with the message "Not
    provide selectedNode in provisionOptions" before it looks for the
    mount point: no discovery, no command, the cache untouched. *)
Theorem Provision_outcome {Quantity : Type} (env : @localvolume.Env Quantity)
    (options : @localvolume.ProvisionOptions Quantity) (w : localvolume.World) :
  (localvolume.Provision env options w).1.1.2 = localvolume.ProvisioningFinished
  ∧ ((localvolume.Provision env options w).1.1.1 = None
     ↔ (localvolume.Provision env options w).1.2 ≠ None)
  ∧ length (localvolume.commands
              (localvolume.trace (localvolume.Provision env options w).2))
    ≤ length (localvolume.commands (localvolume.trace w)) + 1
  ∧ (localvolume.SelectedNode options = None →
       (localvolume.Provision env options w).1.2
       = Some "Not provide selectedNode in provisionOptions"
       ∧ localvolume.host (localvolume.Provision env options w).2 = localvolume.host w
       ∧ localvolume.commands
           (localvolume.trace (localvolume.Provision env options w).2)
         = localvolume.commands (localvolume.trace w)
       ∧ localvolume.discoveries
           (localvolume.trace (localvolume.Provision env options w).2)
         = localvolume.discoveries (localvolume.trace w)).
Proof.
  destruct (localvolume.SelectedNode options) as [node|] eqn:Hnode.
  - rewrite (Provision_eq env options w node Hnode). cbv zeta.
    set (w0 := localvolume.log _ w).
    assert (localvolume.commands (localvolume.trace w0)
            = localvolume.commands (localvolume.trace w)) as Hc0.
    { unfold w0. by rewrite commands_log, app_nil_r. }
    pose proof (commands_find env options w0) as Hc1.
    destruct (localvolume.findLocalVolumeMountedPath env options w0) as [[mount err] w1].
    cbn [fst snd] in Hc1. destruct err as [e|].
    + cbn [fst snd]. rewrite Hc1, Hc0.
      split; [done |]. split; [done |]. split; [lia | done].
    + cbn [fst snd]. rewrite commands_log, length_app, Hc1, Hc0.
      destruct (localvolume.cmdExecutor_OnNodesPods env _ _ _ _) as [e|];
        (split; [done |]; split; [done |]; split; [simpl; lia | done]).
  - unfold localvolume.Provision. rewrite Hnode. cbn [fst snd].
    rewrite !commands_log, !app_nil_r.
    rewrite !discoveries_log by done.
    split; [done |]. split; [done |]. split; [lia |]. done.
Qed.

(** X23. With a hostpath parameter and a selected node, [Provision]
    never looks at the discovered mount point: the cache is left as it
    is (a failed discovery included), nothing is discovered, and the
    one command makes the directory under "/hostfs" joined with the
    parameter; the error returned is the answer of that command. *)
Theorem Provision_explicit_hostpath {Quantity : Type} (env : @localvolume.Env Quantity)
    (options : @localvolume.ProvisionOptions Quantity) (w : localvolume.World)
    (node : string) :
  localvolume.hostpath options ≠ "" →
  localvolume.SelectedNode options = Some node →
  localvolume.host (localvolume.Provision env options w).2 = localvolume.host w
  ∧ localvolume.discoveries (localvolume.trace (localvolume.Provision env options w).2)
    = localvolume.discoveries (localvolume.trace w)
  ∧ localvolume.commands (localvolume.trace (localvolume.Provision env options w).2)
    = localvolume.commands (localvolume.trace w)
      ++ [ localvolume.OnNodesPods
             ("mkdir -p "
              +:+ localvolume.JoinPath env
                    [ localvolume.JoinPath env ["/hostfs"; localvolume.hostpath options];
                      "localvolume"; localvolume.PVName options ])
             ("kubernetes.io/hostname=" +:+ node) "app=volume-provisioner" ]
  ∧ (localvolume.Provision env options w).1.2
    = localvolume.cmdExecutor_OnNodesPods env
        (localvolume.trace w
         ++ [localvolume.Infof ("Start provisioning local volume: options: "
                                +:+ localvolume.showOptions env options)])
        ("mkdir -p "
         +:+ localvolume.JoinPath env
               [ localvolume.JoinPath env ["/hostfs"; localvolume.hostpath options];
                 "localvolume"; localvolume.PVName options ])
        ("kubernetes.io/hostname=" +:+ node) "app=volume-provisioner".
Proof.
  intros Hhp Hnode.
  rewrite (Provision_eq env options w node Hnode). cbv zeta.
  rewrite find_explicit by done. cbn [fst snd].
  rewrite !commands_log, app_nil_r, !discoveries_log by done.
  split; [done |]. split; [done |]. split; [done |].
  cbn [localvolume.log localvolume.trace].
  by destruct (localvolume.cmdExecutor_OnNodesPods env _ _ _ _).
Qed.

Lemma Provision_explicit_hostpath_witness :
  (localvolume.Provision VolumeSample.broken (VolumeSample.request "pv-3" (Some "/mnt/disk"))
     (localvolume.Provision VolumeSample.broken (VolumeSample.request "pv-1" None)
        localvolume.start).2).1.2
  = None.
Proof.
  exact (proj2 (proj2 (proj2
    (Provision_explicit_hostpath VolumeSample.broken
       (VolumeSample.request "pv-3" (Some "/mnt/disk"))
       (localvolume.Provision VolumeSample.broken (VolumeSample.request "pv-1" None)
          localvolume.start).2
       "node-1" ltac:(discriminate) eq_refl)))).
Defined.
